(** * nextnanopy templates/shortcuts.py: a shallow embedding and its properties

    The development follows [templates/shortcuts.py]: file-name handling
    ([separateFileExtension]), engine detection ([detect_software_new]),
    the sweep folder namers and the output-file resolver
    ([getDataFile_in_folder]).

    Conventions of the embedding:
    - a Python [str] is a [string] whose characters are code points below
      256;
    - a raised exception is a value [exn] (class and message); a call that
      can raise returns a [result];
    - code that prints or reads the terminal runs in the monad [io], whose
      state holds the lines still to be typed on standard input and the
      text written so far on standard output;
    - [os.path] is [posixpath];
    - messages of exceptions that the interpreter raises itself are those
      of CPython 3.11; the statements below use their classes only. *)

From Stdlib Require Import ZArith Ascii String DecimalString.
From stdpp Require Import gmap strings list.

Local Open Scope Z_scope.

(** ** Exceptions and results *)

Inductive exn_class :=
  | FileNotFoundError | RuntimeError | TypeError | ValueError | IndexError
  | UnboundLocalError | NotImplementedError | EOFError | KeyError
  | NextnanoInputFileError
  | OtherError (name : string).

Record exn := Raise { cls : exn_class; msg : string }.

Inductive result (A : Type) :=
  | OK (a : A)
  | Err (e : exn).
Arguments OK {A} a.
Arguments Err {A} e.

#[global] Instance exn_class_eq_dec : EqDecision exn_class.
Proof. solve_decision. Defined.

Definition rbind {A B} (r : result A) (k : A → result B) : result B :=
  match r with OK a => k a | Err e => Err e end.

Notation "'try!' x := r 'in' k" := (rbind r (fun x => k))
  (at level 10, x pattern, r at level 100, k at level 200).

(** ** Python strings *)

Module Str.

(** [s[:n]] and [s[n:]] for [0 <= n]. *)
Fixpoint take (n : nat) (s : string) : string :=
  match n, s with
  | S k, String c r => String c (take k r)
  | _, _ => ""
  end.

Fixpoint drop (n : nat) (s : string) : string :=
  match n, s with
  | S k, String c r => drop k r
  | _, _ => s
  end.

(** [s[i:i+1]]: the one-character string at [i], empty out of range. *)
Definition at_index (s : string) (i : Z) : string :=
  if i <? 0 then "" else take 1 (drop (Z.to_nat i) s).

(** [s.rfind(c)] for a one-character [c]: the last index of [c], or -1. *)
Fixpoint rfind (c : ascii) (s : string) : Z :=
  match s with
  | EmptyString => -1
  | String a r =>
      let i := rfind c r in
      if 0 <=? i then i + 1 else if Ascii.eqb a c then 0 else -1
  end.

Fixpoint startswith (p s : string) : bool :=
  match p, s with
  | EmptyString, _ => true
  | String a p', String b s' => Ascii.eqb a b && startswith p' s'
  | String _ _, EmptyString => false
  end.

(** [needle in hay] *)
Fixpoint contains (needle hay : string) : bool :=
  startswith needle hay ||
  match hay with
  | EmptyString => false
  | String _ r => contains needle r
  end.

(** [sep.join(l)] *)
Fixpoint join (sep : string) (l : list string) : string :=
  match l with
  | [] => ""
  | [x] => x
  | x :: r => x +:+ sep +:+ join sep r
  end.

(** The newline character. *)
Definition nl : string := String "010" "".

(** [''.join(l)] *)
Definition concat (l : list string) : string :=
  foldr String.append "" l.

End Str.

(** ** posixpath *)

Module posixpath.

(** [posixpath.split(p)[1]]: what follows the last slash. *)
Definition split_tail (p : string) : string :=
  let i := Str.rfind "/" p + 1 in
  Str.drop (Z.to_nat i) p.

(** The loop of [genericpath._splitext] that skips leading dots: is there
    a character other than the dot in [p[filenameIndex:dotIndex]]?
    [steps] is [dotIndex - filenameIndex]. *)
Fixpoint non_dot_before (p : string) (filenameIndex : Z) (steps : nat) : bool :=
  match steps with
  | O => false
  | S k =>
      if negb (String.eqb (Str.at_index p filenameIndex) ".") then true
      else non_dot_before p (filenameIndex + 1) k
  end.

(** [posixpath.splitext(p)] *)
Definition splitext (p : string) : string * string :=
  let sepIndex := Str.rfind "/" p in
  let dotIndex := Str.rfind "." p in
  if (sepIndex <? dotIndex)
     && non_dot_before p (sepIndex + 1) (Z.to_nat (dotIndex - (sepIndex + 1)))
  then (Str.take (Z.to_nat dotIndex) p, Str.drop (Z.to_nat dotIndex) p)
  else (p, "").

(** [posixpath.join(a, b)] *)
Definition join (a b : string) : string :=
  if Str.startswith "/" b then b
  else if String.eqb a "" || String.eqb (Str.at_index a (Z.of_nat (String.length a) - 1)) "/"
       then a +:+ b
       else a +:+ "/" +:+ b.

End posixpath.

(** ** Simulation preprocessing *)

Definition supported_extensions : list string := [""; ".in"; ".xml"; ".negf"].

Definition separateFileExtension (filename : string) : result (string * string) :=
  let filename := posixpath.split_tail filename in
  let '(filename_no_extension, extension) := posixpath.splitext filename in
  if negb (bool_decide (extension ∈ supported_extensions)) then
    Err (Raise RuntimeError
           ("File extension " +:+ extension +:+ " is not supported by nextnano."))
  else OK (filename_no_extension, extension).

(** ** Python values and builtins *)

(** [sys.get_int_max_str_digits()]: how many digits an [int] may have
    when it is converted to or from a decimal string (CPython's default). *)
Definition int_max_str_digits : nat := 4300.

(** The least number with more digits than the limit allows. *)
Definition str_digits_bound : Z := 10 ^ Z.of_nat int_max_str_digits.

Definition exceeds_str_digits (z : Z) : bool := str_digits_bound <=? Z.abs z.
Arguments str_digits_bound : simpl never.
Arguments exceeds_str_digits : simpl never.

(** What [str] and [format] raise beyond the limit. *)
Definition str_digits_error : exn :=
  Raise ValueError
    "Exceeds the limit (4300 digits) for integer string conversion; use sys.set_int_max_str_digits() to increase the limit".

(** The decimal digits of an integer, with its sign. *)
Definition decimal (z : Z) : string := NilZero.string_of_int (Z.to_int z).

(** The values that reach the functions below as sweep variables, sweep
    values and keys. A [float] is given by its [repr], which determines
    it. *)
Inductive pyval :=
  | VStr (s : string)
  | VInt (z : Z)
  | VFloat (shown : string)
  | VBool (b : bool)
  | VNone.

(** [isinstance(v, str)] *)
Definition is_str (v : pyval) : bool :=
  match v with VStr _ => true | _ => false end.

(** [str(v)], also what an f-string shows of [v]; it raises on an [int]
    with more digits than the limit. *)
Definition py_str (v : pyval) : result string :=
  match v with
  | VStr s => OK s
  | VInt z => if exceeds_str_digits z then Err str_digits_error else OK (decimal z)
  | VFloat shown => OK shown
  | VBool true => OK "True"
  | VBool false => OK "False"
  | VNone => OK "None"
  end.

Module Repr.

Definition hex_digit (n : N) : ascii :=
  match n with
  | 0 => "0" | 1 => "1" | 2 => "2" | 3 => "3" | 4 => "4" | 5 => "5"
  | 6 => "6" | 7 => "7" | 8 => "8" | 9 => "9" | 10 => "a" | 11 => "b"
  | 12 => "c" | 13 => "d" | 14 => "e" | _ => "f"
  end%N%char.

Definition hex_escape (c : ascii) : string :=
  let n := N_of_ascii c in
  String "\" (String "x" (String (hex_digit (n / 16)) (String (hex_digit (n mod 16)) ""))).

(** Code points below 256 that [repr] copies unchanged (apart from the
    quote and the backslash). *)
Definition printable (c : ascii) : bool :=
  let n := N_of_ascii c in
  ((32 <=? n) && (n <? 127) || (161 <=? n) && negb (n =? 173))%N.

Definition escape_char (quote c : ascii) : string :=
  if Ascii.eqb c quote || Ascii.eqb c "\" then String "\" (String c "")
  else if Ascii.eqb c "009" then "\t"
  else if Ascii.eqb c "010" then "\n"
  else if Ascii.eqb c "013" then "\r"
  else if printable c then String c ""
  else hex_escape c.

Fixpoint escape (quote : ascii) (s : string) : string :=
  match s with
  | EmptyString => ""
  | String c r => escape_char quote c +:+ escape quote r
  end.

Definition dquote : ascii := "034"%char.

(** [repr(s)] of a [str]: double quotes only when [s] has a single quote
    and no double quote. *)
Definition of_str (s : string) : string :=
  let quote : ascii :=
    if Str.contains "'" s && negb (Str.contains (String dquote "") s)
    then dquote else "'"%char in
  String quote (escape quote s) +:+ String quote "".

(** [str(l)] of a list of [str]. *)
Definition of_list (l : list string) : string :=
  "[" +:+ Str.join ", " (of_str <$> l) +:+ "]".

End Repr.

Module Int.

(** White space that [int] skips around the number. *)
Definition is_space (c : ascii) : bool :=
  let n := N_of_ascii c in
  ((9 <=? n) && (n <=? 13) || (n =? 32) || (n =? 133) || (n =? 160))%N.

Definition digit (c : ascii) : option Z :=
  let n := N_of_ascii c in
  if ((48 <=? n) && (n <=? 57))%N then Some (Z.of_N n - 48) else None.

Fixpoint all_space (s : string) : bool :=
  match s with
  | EmptyString => true
  | String c r => is_space c && all_space r
  end.

Fixpoint lstrip (s : string) : string :=
  match s with
  | String c r => if is_space c then lstrip r else s
  | EmptyString => ""
  end.

(** The number read, unless it was written with more digits than the
    limit allows (leading zeros count, underscores do not). *)
Definition within_limit (count : nat) (acc : Z) : option Z :=
  if (int_max_str_digits <? count)%nat then None else Some acc.

(** The digits, with single underscores between them, then trailing
    white space. [count] is the number of digits read so far, [prev_us]
    tells that the previous character was an underscore. *)
Fixpoint digits (s : string) (acc : Z) (count : nat) (prev_us : bool) : option Z :=
  match s with
  | EmptyString => if prev_us then None else within_limit count acc
  | String c r =>
      match digit c with
      | Some d => digits r (10 * acc + d) (S count) false
      | None =>
          if prev_us then None
          else if Ascii.eqb c "_" then digits r acc count true
          else if all_space s then within_limit count acc
          else None
      end
  end.

Definition unsigned (s : string) : option Z :=
  match s with
  | String c _ =>
      match digit c with Some _ => digits s 0 0 false | None => None end
  | EmptyString => None
  end.

(** [int(s)]: [None] stands for [ValueError]. *)
Definition parse (s : string) : option Z :=
  match lstrip s with
  | String "+" r => unsigned r
  | String "-" r => Z.opp <$> unsigned r
  | r => unsigned r
  end.

End Int.

(** [l[i]] *)
Definition py_index {A} (l : list A) (i : Z) : result A :=
  let j := if i <? 0 then i + Z.of_nat (length l) else i in
  match (if j <? 0 then None else l !! Z.to_nat j) with
  | Some x => OK x
  | None => Err (Raise IndexError "list index out of range")
  end.

(** ** The terminal *)

Record world := World {
  stdin : list string;   (* the lines still to be typed, without newline *)
  stdout : list string   (* what was written, oldest first *)
}.

Definition io (A : Type) : Type := world → result A * world.

Definition ret {A} (a : A) : io A := fun w => (OK a, w).
Definition raise {A} (e : exn) : io A := fun w => (Err e, w).
Definition bind {A B} (m : io A) (k : A → io B) : io B :=
  fun w => match m w with
           | (OK a, w') => k a w'
           | (Err e, w') => (Err e, w')
           end.
Definition lift {A} (r : result A) : io A := fun w => (r, w).

Notation "'do!' x := m 'in' k" := (bind m (fun x => k))
  (at level 10, x pattern, m at level 100, k at level 200).
Notation "m >>; k" := (bind m (fun _ => k))
  (at level 100, k at level 200, right associativity).

Definition write (s : string) : io unit :=
  fun w => (OK tt, World (stdin w) (stdout w ++ [s])).

(** [print(s)] *)
Definition print (s : string) : io unit := write (s +:+ Str.nl).

(** [input(prompt)] *)
Definition input (prompt : string) : io string :=
  write prompt >>;
  fun w => match stdin w with
           | [] => (Err (Raise EOFError "EOF when reading a line"), w)
           | line :: rest => (OK line, World rest (stdout w))
           end.

(** [for x in l: body x] *)
Fixpoint for_each {A} (l : list A) (body : A → io unit) : io unit :=
  match l with
  | [] => ret tt
  | x :: r => body x >>; for_each r body
  end.

(** ** The collaborators *)

(** The nextnanopy package [nn] as [shortcuts.py] uses it. Each call may
    raise. *)
Record nextnanopy := {
  datafile : Type;
  (* nn.config.get(section, option) *)
  config_get : string → string → result string;
  (* nn.DataFolder(folder_path).find(keyword, deep=True) *)
  DataFolder_find : string → string → result (list string);
  (* nn.DataFile(file, product=software) *)
  DataFile : string → string → result datafile
}.

(** The interpreter: the value of [__debug__] and the order in which
    [list(s)] enumerates a set, which Python leaves open. *)
Record interpreter := {
  debug : bool;
  list_of_set : gset string → list string;
  list_of_set_perm : ∀ X, list_of_set X ≡ₚ elements X
}.

(** The file system as [open(path, 'r')] sees it: the text of each
    existing file. *)
Definition filesystem := gmap string string.

Module File.

Definition cons_head (c : ascii) (l : list string) : list string :=
  match l with
  | [] => [String c ""]
  | x :: r => String c x :: r
  end.

(** The lines a text file yields when iterated, in universal-newline
    mode: each of CR LF, CR and LF ends a line and is read as LF. *)
Fixpoint lines (content : string) : list string :=
  match content with
  | EmptyString => []
  | String c r =>
      if Ascii.eqb c "010" then Str.nl :: lines r
      else if Ascii.eqb c "013" then
        (if Str.startswith Str.nl r then lines r else Str.nl :: lines r)
      else cons_head c (lines r)
  end.

(** [open(path, 'r')] followed by reading all lines. The files of the
    model are regular text files that can be read: a missing file is the
    one failure. *)
Definition open_lines (fs : filesystem) (path : string) : result (list string) :=
  match fs !! path with
  | Some content => OK (lines content)
  | None =>
      Err (Raise FileNotFoundError
             ("[Errno 2] No such file or directory: " +:+ Repr.of_str path))
  end.

End File.

(** ** Engine detection *)

Record InputFile := { fullpath : string }.

(** The local variables [software] and [extension] of
    [detect_software_new]; [None] is an unbound variable. *)
Record locals := Locals { software : option string; extension : option string }.

Definition assign (sw ext : string) : locals := Locals (Some sw) (Some ext).

(** One pass through the body of the [for] loop; the boolean tells
    whether the branch taken ends in [break]. *)
Definition scan_line (line : string) (vars : locals) : locals * bool :=
  if Str.contains "simulation-flow-control" line then (assign "nextnano3" ".in", true)
  else if Str.contains "run{" line then (assign "nextnano++" ".in", true)
  else if Str.contains "<nextnano.NEGF" line then (assign "nextnano.NEGF" ".xml", true)
  else if Str.contains "nextnano.NEGF{" line then (assign "nextnano.NEGF++" ".negf", false)
  else if Str.contains "<nextnano.MSB" line then (assign "nextnano.MSB" ".xml", false)
  else if Str.contains "nextnano.MSB{" line then (assign "nextnano.MSB" ".negf", false)
  else (vars, false).

Fixpoint scan (file : list string) (vars : locals) : locals :=
  match file with
  | [] => vars
  | line :: rest =>
      let '(vars', break) := scan_line line vars in
      if break then vars' else scan rest vars'
  end.

(** Reading a local variable. *)
Definition load_local (name : string) (v : option string) : result string :=
  match v with
  | Some x => OK x
  | None =>
      Err (Raise UnboundLocalError
             ("cannot access local variable '" +:+ name
              +:+ "' where it is not associated with a value"))
  end.

Definition detect_software_new (fs : filesystem) (inputfile : InputFile)
  : io (string * string) :=
  do! vars :=
    match File.open_lines fs (fullpath inputfile) with
    | OK file => ret (scan file (Locals None None))
    | Err e =>
        if decide (cls e = FileNotFoundError) then
          raise (Raise FileNotFoundError
                   ("Input file " +:+ fullpath inputfile +:+ " not found!"))
        else raise e
    end in
  do! sw := lift (load_local "software" (software vars)) in
  if String.eqb sw "" then
    raise (Raise NextnanoInputFileError
             "Software cannot be detected! Please check your input file.")
  else
    print (Str.nl +:+ "Software detected:  " +:+ sw) >>;
    do! sw := lift (load_local "software" (software vars)) in
    do! ext := lift (load_local "extension" (extension vars)) in
    ret (sw, ext).

(** ** Access to output data *)

(** The loop [for sweepVar in args] shared by the two folder namers. *)
Fixpoint append_sweep_vars (args : list pyval) (name : string) : result string :=
  match args with
  | [] => OK name
  | sweepVar :: rest =>
      match sweepVar with
      | VStr s => append_sweep_vars rest (name +:+ "__" +:+ s)
      | _ =>
          try! shown := py_str sweepVar in
          Err (Raise TypeError ("Argument " +:+ shown +:+ " must be a string!"))
      end
  end.

Definition getSweepOutputFolderName (filename : string) (args : list pyval)
  : result string :=
  try! (filename_no_extension, _) := separateFileExtension filename in
  let output_folderName := filename_no_extension +:+ "_sweep" in
  append_sweep_vars args output_folderName.

Definition getSweepOutputFolderPath (nn : nextnanopy)
    (filename software : string) (args : list pyval) : result string :=
  try! (filename_no_extension, _) := separateFileExtension filename in
  try! outputdirectory := config_get nn software "outputdirectory" in
  let output_folder_path :=
    posixpath.join outputdirectory (filename_no_extension +:+ "_sweep") in
  if bool_decide (length args = 0%nat) then
    Err (Raise ValueError "Sweep variable string is missing in the argument!")
  else append_sweep_vars args output_folder_path.

Definition get_output_subfolder_path (sweep_output_folder_path input_file_name : string)
  : result string :=
  try! (subfolder_name, _) := separateFileExtension input_file_name in
  OK (posixpath.join sweep_output_folder_path subfolder_name).

(** The loop over [sweepCoordinates.items()], the pairs of the dict in
    insertion order. *)
Fixpoint append_coordinates (items : list (pyval * pyval)) (name : string) : io string :=
  match items with
  | [] => ret name
  | (sweepVar, value) :: rest =>
      match sweepVar with
      | VStr key =>
          match py_str value with
          | Err e =>
              if decide (cls e = ValueError)
              then print "value cannot be converted to string!" >>; raise e
              else raise e
          | OK val => append_coordinates rest (name +:+ key +:+ "_" +:+ val +:+ "_")
          end
      | _ => raise (Raise TypeError "key must be a string!")
      end
  end.

Definition getSweepOutputSubfolderName (filename : string)
    (sweepCoordinates : list (pyval * pyval)) : io string :=
  do! (filename_no_extension, _) := lift (separateFileExtension filename) in
  let output_subfolderName := filename_no_extension +:+ "__" in
  append_coordinates sweepCoordinates output_subfolderName.

(** The argument [keywords]: a list of [str], or any other value. *)
Inductive keywords_arg :=
  | KwVal (v : pyval)
  | KwList (l : list string).

(** [keywords] as an f-string shows it. *)
Definition show_keywords (keywords : keywords_arg) : result string :=
  match keywords with
  | KwVal v => py_str v
  | KwList l => OK (Repr.of_list l)
  end.

(** [[f(x) for x in l]] *)
Fixpoint list_comprehension {A B} (f : A → result B) (l : list A) : result (list B) :=
  match l with
  | [] => OK []
  | x :: r =>
      try! y := f x in
      try! ys := list_comprehension f r in
      OK (y :: ys)
  end.

(** [enumerate(l)], counting from [count]. *)
Fixpoint enumerate {A} (count : Z) (l : list A) : list (Z * A) :=
  match l with
  | [] => []
  | x :: r => (count, x) :: enumerate (count + 1) r
  end.

Section Resolver.

Variable nn : nextnanopy.
Variable py : interpreter.

(** The search of [getDataFile_in_folder]: the value of [list_of_files]. *)
Definition search (keywords : keywords_arg) (folder_path : string)
  : result (list string) :=
  match keywords with
  | KwVal (VStr keyword) => DataFolder_find nn folder_path keyword
  | KwList keywords =>
      try! list_of_sets :=
        list_comprehension
          (fun keyword =>
             try! found := DataFolder_find nn folder_path keyword in
             OK (list_to_set found : gset string))
          keywords in
      try! first := py_index list_of_sets 0 in
      let candidates :=
        foldl (fun candidates s => s ∩ candidates) first list_of_sets in
      OK (list_of_set py candidates)
  | KwVal _ =>
      Err (Raise TypeError "Argument 'keywords' must be either str or list")
  end.

(** The loop [while not determined] over [n] candidates, on the lines
    typed and the text written so far. It returns the value of [choice]
    once [determined] is set. *)
Fixpoint choose (n : Z) (typed written : list string) : result Z * world :=
  let written := written ++ ["Enter the index of data you need: "] in
  match typed with
  | [] => (Err (Raise EOFError "EOF when reading a line"), World [] written)
  | choice :: typed =>
      if String.eqb choice "q" then
        (Err (Raise RuntimeError "Nextnanopy terminated."), World typed written)
      else
        match Int.parse choice with
        | None =>
            choose n typed
              (written ++ ["Invalid input. (Type 'q' to quit)" +:+ Str.nl])
        | Some choice =>
            if (choice <? 0) || (n <=? choice) then
              choose n typed
                (written ++ ["Index out of bounds. Type 'q' to quit" +:+ Str.nl])
            else (OK choice, World typed written)
        end
  end.

Definition choose_index (n : Z) : io Z :=
  fun w => choose n (stdin w) (stdout w).

(** The final [try] block: [nn.DataFile(file, product=software)] with
    [NotImplementedError] raised anew under the resolver's message. *)
Definition open_datafile (file software : string) : result (datafile nn) :=
  match DataFile nn file software with
  | OK data => OK data
  | Err e =>
      if decide (cls e = NotImplementedError) then
        Err (Raise NotImplementedError
               ("Nextnanopy does not support datafile for " +:+ file))
      else Err e
  end.

(** One line of the listing. [count] is an index into a list, far below
    the limit on digits, so that showing it does not raise. *)
Definition print_choice (numbered : Z * string) : io unit :=
  let filename := posixpath.split_tail numbered.2 in
  print ("Choice " +:+ decimal numbered.1 +:+ ": " +:+ filename).

Definition getDataFile_in_folder (keywords : keywords_arg)
    (folder_path software : string) : io (datafile nn) :=
  do! shown := lift (show_keywords keywords) in
  print (Str.nl +:+ "Searching for output data with keyword(s) " +:+ shown +:+ "...") >>;
  do! list_of_files := lift (search keywords folder_path) in
  do! file :=
    (if bool_decide (length list_of_files = 0%nat) then
       raise (Raise FileNotFoundError
                ("No output file found with keyword(s) '" +:+ shown +:+ "'!"))
     else if bool_decide (length list_of_files = 1%nat) then
       lift (py_index list_of_files 0)
     else
       print ("More than one output files found with keyword(s) '" +:+ shown +:+ "'!") >>;
       for_each (enumerate 0 list_of_files) print_choice >>;
       do! choice := choose_index (Z.of_nat (length list_of_files)) in
       lift (py_index list_of_files choice)) in
  (if debug py then print ("Found:" +:+ Str.nl +:+ " " +:+ file) else ret tt) >>;
  lift (open_datafile file software).

Definition getDataFile (keywords : keywords_arg) (name software : string)
  : io (datafile nn) :=
  do! outputFolder := lift (config_get nn software "outputdirectory") in
  do! (filename_no_extension, _) := lift (separateFileExtension name) in
  let outputSubfolder := posixpath.join outputFolder filename_no_extension in
  getDataFile_in_folder keywords outputSubfolder software.

End Resolver.

(** ** Vocabulary of the statements *)

(** A base name without extension: no directory part, and [splitext]
    finds no extension. *)
Definition bare_name (b : string) : Prop :=
  Str.contains "/" b = false ∧ (posixpath.splitext b).2 = "".

(** [str(v)] as a string, for a value on which [str] does not raise. *)
Definition str_value (v : pyval) : string :=
  match py_str v with OK s => s | Err _ => "" end.

(** The two classes of engine markers. *)
Definition early_exit_marker (line : string) : bool :=
  Str.contains "simulation-flow-control" line
  || Str.contains "run{" line
  || Str.contains "<nextnano.NEGF" line.

Definition overwrite_marker (line : string) : bool :=
  Str.contains "nextnano.NEGF{" line
  || Str.contains "<nextnano.MSB" line
  || Str.contains "nextnano.MSB{" line.

Definition early_exit_engine (line : string) : string * string :=
  if Str.contains "simulation-flow-control" line then ("nextnano3", ".in")
  else if Str.contains "run{" line then ("nextnano++", ".in")
  else ("nextnano.NEGF", ".xml").

Definition overwrite_engine (line : string) : string * string :=
  if Str.contains "nextnano.NEGF{" line then ("nextnano.NEGF++", ".negf")
  else if Str.contains "<nextnano.MSB" line then ("nextnano.MSB", ".xml")
  else ("nextnano.MSB", ".negf").

(** The terminal after [detect_software_new] has reported [sw]. *)
Definition reported (sw : string) (w : world) : world :=
  World (stdin w) (stdout w ++ [(Str.nl +:+ "Software detected:  " +:+ sw) +:+ Str.nl]).

(** The chooser's prompt and its answer to a rejected line. *)
Definition prompt : string := "Enter the index of data you need: ".

Definition retry_message (typed : string) : string :=
  match Int.parse typed with
  | None => "Invalid input. (Type 'q' to quit)" +:+ Str.nl
  | Some _ => "Index out of bounds. Type 'q' to quit" +:+ Str.nl
  end.

(** A line the chooser rejects over [n] candidates: not the quit signal,
    and not an integer or an index out of range. *)
Definition rejected (n : Z) (typed : string) : Prop :=
  typed ≠ "q" ∧
  match Int.parse typed with
  | None => True
  | Some i => i < 0 ∨ n ≤ i
  end.

(** An index the chooser accepts. *)
Definition accepted (n : Z) (typed : string) (i : Z) : Prop :=
  typed ≠ "q" ∧ Int.parse typed = Some i ∧ 0 ≤ i < n.

(** What the chooser writes while it rejects the lines [bad]. *)
Definition retries (bad : list string) : list string :=
  bad ≫= (fun typed => [prompt; retry_message typed]).

(** What the resolver writes first, and before the chooser starts. *)
Definition searching (shown : string) : string :=
  (Str.nl +:+ "Searching for output data with keyword(s) " +:+ shown +:+ "...")
  +:+ Str.nl.

Definition announced (shown : string) (files : list string) : list string :=
  [searching shown;
   ("More than one output files found with keyword(s) '" +:+ shown +:+ "'!") +:+ Str.nl]
  ++ ((fun numbered : Z * string =>
         ("Choice " +:+ decimal numbered.1 +:+ ": "
          +:+ posixpath.split_tail numbered.2) +:+ Str.nl)
        <$> enumerate 0 files).

Definition found (py : interpreter) (file : string) : list string :=
  if debug py then [("Found:" +:+ Str.nl +:+ " " +:+ file) +:+ Str.nl] else [].




(** ** Sample collaborators *)

(** Modelled from the spec: the search primitive of the external library,
    [nn.DataFolder(folder_path).find(keyword, deep=True)], whose code is
    not part of [shortcuts.py]. It locates the files of the folder tree
    whose names contain the keyword; [tree] gives the files below a
    folder. *)
Definition find_by_name (tree : string → list string) (folder_path keyword : string)
  : result (list string) :=
  OK (filter (fun file => Str.contains keyword (posixpath.split_tail file) = true)
        (tree folder_path)).

(** A package over a fixed folder content, with an output directory per
    engine and a loader that accepts every file. *)
Definition sample_nn (files : list string) : nextnanopy := {|
  datafile := string * string;
  config_get := fun section _ => OK ("/output/" +:+ section);
  DataFolder_find := find_by_name (fun _ => files);
  DataFile := fun file software => OK (file, software)
|}.

(** An interpreter that enumerates a set in the order of [elements]. *)
Definition sample_py : interpreter := {|
  debug := true;
  list_of_set := elements;
  list_of_set_perm := fun X => Permutation_refl (elements X)
|}.

Definition energy_folder : list string :=
  ["energy_electron.dat"; "energy_hole.dat"; "potential.dat"].

Definition sample_fs : filesystem :=
  {[ "qcl.in" := ("# quantum cascade laser" +:+ Str.nl) +:+ ("run{ }" +:+ Str.nl)
                 +:+ "simulation-flow-control";
     "notes.in" := "no engine here" +:+ Str.nl;
     "negf.xml" := ("<nextnano.NEGF>" +:+ Str.nl) +:+ "simulation-flow-control";
     "msb.negf" := ("<nextnano.MSB>" +:+ Str.nl) +:+ "nextnano.NEGF{" ]}.

(** ** Further vocabulary *)

(** A string made of dots only (the empty string included). *)
Fixpoint all_dots (s : string) : bool :=
  match s with
  | EmptyString => true
  | String c r => Ascii.eqb c "." && all_dots r
  end.

(** The pairs that the branches of [detect_software_new] assign. *)
Definition engine_table : list (string * string) :=
  [("nextnano3", ".in"); ("nextnano++", ".in"); ("nextnano.NEGF", ".xml");
   ("nextnano.NEGF++", ".negf"); ("nextnano.MSB", ".xml"); ("nextnano.MSB", ".negf")].

(** A line with a marker of either class. *)
Definition marked (line : string) : bool :=
  early_exit_marker line || overwrite_marker line.

(** The variables hold a pair of the table. *)
Definition assigned_from_table (vars : locals) : Prop :=
  ∃ engine, engine ∈ engine_table ∧ vars = assign engine.1 engine.2.

(** The search and the loader of the package never raise. *)
Definition never_fails (nn : nextnanopy) : Prop :=
  (∀ folder keyword, ∃ found, DataFolder_find nn folder keyword = OK found) ∧
  (∀ file software, ∃ data, DataFile nn file software = OK data).

(** A value that [str] converts. *)
Definition has_str (v : pyval) : Prop := py_str v = OK (str_value v).

(** [n] copies of a character. *)
Fixpoint repeated (c : ascii) (n : nat) : string :=
  match n with
  | O => ""
  | S k => String c (repeated c k)
  end.

(** A package whose configuration has no output directory. *)
Definition unconfigured_nn : nextnanopy := {|
  datafile := string * string;
  config_get := fun section option => Err (Raise KeyError (Repr.of_str section));
  DataFolder_find := find_by_name (fun _ => []);
  DataFile := fun file software => OK (file, software)
|}.

(** A package whose loader supports no file. *)
Definition unsupporting_nn (files : list string) : nextnanopy := {|
  datafile := string * string;
  config_get := fun section _ => OK ("/output/" +:+ section);
  DataFolder_find := find_by_name (fun _ => files);
  DataFile := fun file software => Err (Raise NotImplementedError "")
|}.

(** * Properties *)

(** ** Strings and paths *)

Module StrFacts.

Lemma sapp_cons a r s : String a r +:+ s = String a (r +:+ s).
Proof. reflexivity. Qed.

Lemma sapp_nil_r s : s +:+ "" = s.
Proof. induction s as [|a s IH]; [done|]. by rewrite sapp_cons, IH. Qed.

Lemma sapp_assoc a b c : (a +:+ b) +:+ c = a +:+ (b +:+ c).
Proof. induction a as [|x a IH]; [done|]. by rewrite !sapp_cons, IH. Qed.

Lemma take_drop n s : Str.take n s +:+ Str.drop n s = s.
Proof.
  revert s. induction n as [|n IH]; intros [|a s]; simpl; try done.
  by rewrite sapp_cons, IH.
Qed.

Lemma ascii_eqb_sym a b : Ascii.eqb a b = Ascii.eqb b a.
Proof.
  destruct (Ascii.eqb_spec a b) as [->|Hne].
  - by rewrite Ascii.eqb_refl.
  - symmetry. apply Ascii.eqb_neq. congruence.
Qed.





Lemma contains_char_cons c a r :
  Str.contains (String c "") (String a r)
  = Ascii.eqb c a || Str.contains (String c "") r.
Proof. simpl. by rewrite andb_true_r. Qed.

Lemma contains_char_app c l r :
  Str.contains (String c "") (l +:+ r)
  = Str.contains (String c "") l || Str.contains (String c "") r.
Proof.
  induction l as [|a l IH].
  - change ("" +:+ r) with r. by destruct r.
  - rewrite sapp_cons, !contains_char_cons, IH. by rewrite orb_assoc.
Qed.

Lemma rfind_ge c s : -1 ≤ Str.rfind c s.
Proof.
  induction s as [|a s IH]; simpl; [lia|].
  destruct (0 <=? Str.rfind c s) eqn:E; [apply Z.leb_le in E; lia|].
  destruct (Ascii.eqb a c); lia.
Qed.

Lemma rfind_none c s :
  Str.rfind c s = -1 ↔ Str.contains (String c "") s = false.
Proof.
  induction s as [|a s IH]; [done|].
  rewrite contains_char_cons, (ascii_eqb_sym c a). simpl.
  pose proof (rfind_ge c s).
  destruct (0 <=? Str.rfind c s) eqn:E.
  - apply Z.leb_le in E.
    destruct (Str.contains (String c "") s) eqn:C.
    + rewrite orb_true_r. split; [lia|done].
    + destruct IH as [_ IH]. specialize (IH eq_refl). lia.
  - apply Z.leb_gt in E. assert (Str.rfind c s = -1) as Hs by lia.
    apply IH in Hs as ->. rewrite orb_false_r.
    destruct (Ascii.eqb a c); split; (done || lia).
Qed.

(** What follows the last occurrence of [c] has no [c]. *)
Lemma rfind_drop c s :
  Str.contains (String c "") (Str.drop (Z.to_nat (Str.rfind c s + 1)) s) = false.
Proof.
  induction s as [|a s IH]; [done|].
  pose proof (rfind_ge c s). simpl Str.rfind.
  destruct (0 <=? Str.rfind c s) eqn:E.
  - apply Z.leb_le in E.
    replace (Z.to_nat (Str.rfind c s + 1 + 1)) with (S (Z.to_nat (Str.rfind c s + 1))) by lia.
    exact IH.
  - apply Z.leb_gt in E. assert (Str.rfind c s = -1) as Hs by lia.
    destruct (Ascii.eqb a c) eqn:Ea.
    + change (Str.drop (Z.to_nat (0 + 1)) (String a s)) with s.
      by apply rfind_none.
    + change (Str.drop (Z.to_nat (-1 + 1)) (String a s)) with (String a s).
      rewrite contains_char_cons, (ascii_eqb_sym c a), Ea. by apply rfind_none.
Qed.

(** What precedes it, the occurrence included, ends with [c]. *)
Lemma rfind_take c s :
  0 ≤ Str.rfind c s →
  ∃ d, Str.take (Z.to_nat (Str.rfind c s + 1)) s = d +:+ String c "".
Proof.
  induction s as [|a s IH]; simpl; [lia|].
  pose proof (rfind_ge c s).
  destruct (0 <=? Str.rfind c s) eqn:E.
  - apply Z.leb_le in E. intros _. destruct (IH E) as [d Hd].
    exists (String a d).
    replace (Z.to_nat (Str.rfind c s + 1 + 1)) with (S (Z.to_nat (Str.rfind c s + 1))) by lia.
    simpl. by rewrite Hd.
  - destruct (Ascii.eqb_spec a c) as [->|]; [|lia]. intros _. by exists "".
Qed.

Lemma concat_app l1 l2 : Str.concat (l1 ++ l2) = Str.concat l1 +:+ Str.concat l2.
Proof.
  unfold Str.concat. induction l1 as [|x l1 IH]; [done|].
  simpl. by rewrite IH, sapp_assoc.
Qed.

End StrFacts.

Module PathFacts.
Import StrFacts.

(** A path is its directory part, empty or ending in a slash, followed
    by a name without slash. *)
Lemma split_tail_spec p :
  ∃ dir, p = dir +:+ posixpath.split_tail p
         ∧ (dir = "" ∨ ∃ d, dir = d +:+ "/")
         ∧ Str.contains "/" (posixpath.split_tail p) = false.
Proof.
  unfold posixpath.split_tail.
  exists (Str.take (Z.to_nat (Str.rfind "/" p + 1)) p). split_and!.
  - by rewrite take_drop.
  - pose proof (rfind_ge "/" p).
    destruct (decide (Str.rfind "/" p = -1)) as [->|]; [by left|].
    right. apply rfind_take. lia.
  - apply rfind_drop.
Qed.

Lemma split_tail_id p :
  Str.contains "/" p = false → posixpath.split_tail p = p.
Proof.
  intros H%rfind_none. unfold posixpath.split_tail. by rewrite H.
Qed.

Lemma splitext_app p :
  (posixpath.splitext p).1 +:+ (posixpath.splitext p).2 = p.
Proof.
  unfold posixpath.splitext.
  destruct (_ && _); simpl; [apply take_drop | apply sapp_nil_r].
Qed.

Lemma separateFileExtension_unfold filename :
  let name := posixpath.split_tail filename in
  separateFileExtension filename =
    if bool_decide ((posixpath.splitext name).2 ∈ supported_extensions)
    then OK (posixpath.splitext name)
    else Err (Raise RuntimeError
                ("File extension " +:+ (posixpath.splitext name).2
                 +:+ " is not supported by nextnano.")).
Proof.
  unfold separateFileExtension. simpl.
  destruct (posixpath.splitext _) as [b e]; simpl. by case_bool_decide.
Qed.

Lemma separateFileExtension_bare b :
  bare_name b → separateFileExtension b = OK (b, "").
Proof.
  intros [Hsep Hext]. rewrite separateFileExtension_unfold. simpl.
  rewrite (split_tail_id _ Hsep). pose proof (splitext_app b) as Happ.
  destruct (posixpath.splitext b) as [b' e]; simpl in *. subst e.
  rewrite sapp_nil_r in Happ. by subst b'.
Qed.

End PathFacts.

(** C5. [separateFileExtension] strips the directory part of a file name
    or path and returns the base name and the extension; the extension is
    empty or one of [.in], [.xml], [.negf], and any other extension raises
    the unsupported-extension [RuntimeError]. For instance ["foo.in"] gives
    [("foo", ".in")], ["foo"] gives [("foo", "")] and ["foo.csv"] raises. *)
Theorem separateFileExtension_spec :
  (∀ filename : string,
     ∃ dir name : string,
       filename = dir +:+ name
       ∧ (dir = "" ∨ ∃ d, dir = d +:+ "/")
       ∧ Str.contains "/" name = false
       ∧ match separateFileExtension filename with
         | OK (base, ext) =>
             base +:+ ext = name
             ∧ (base, ext) = posixpath.splitext name
             ∧ ext ∈ supported_extensions
         | Err e =>
             cls e = RuntimeError
             ∧ ((posixpath.splitext name).2 ∉ supported_extensions)
             ∧ msg e = ("File extension " +:+ (posixpath.splitext name).2
                        +:+ " is not supported by nextnano.")
         end)
  ∧ separateFileExtension "foo.in" = OK ("foo", ".in")
  ∧ separateFileExtension "foo" = OK ("foo", "")
  ∧ (∃ e, separateFileExtension "foo.csv" = Err e ∧ cls e = RuntimeError).
Proof.
  split_and!; [|done|done|by eexists].
  intros filename.
  destruct (PathFacts.split_tail_spec filename) as (dir & Hsplit & Hdir & Hsep).
  exists dir, (posixpath.split_tail filename). split_and!; [done..|].
  rewrite PathFacts.separateFileExtension_unfold. simpl.
  pose proof (PathFacts.splitext_app (posixpath.split_tail filename)) as Happ.
  case_bool_decide as Hext.
  - destruct (posixpath.splitext _) as [base ext]. by simpl in *.
  - done.
Qed.

(** ** Sweep folder and subfolder names *)

Section Namers.
Import StrFacts PathFacts.

(** [str] raises on an [int] beyond the limit on digits, and on nothing
    else. *)
Lemma py_str_error v e :
  py_str v = Err e →
  e = str_digits_error ∧ ∃ z, v = VInt z ∧ exceeds_str_digits z = true.
Proof.
  destruct v as [s|z|shown|[]|]; [discriminate| |discriminate..]. unfold py_str.
  destruct (exceeds_str_digits z) eqn:Hz; [|discriminate]. intros [= <-]. eauto.
Qed.

Lemma py_str_error_class v e : py_str v = Err e → cls e = ValueError.
Proof. by intros [-> _]%py_str_error. Qed.

Lemma py_str_OK v shown : py_str v = OK shown → str_value v = shown.
Proof. unfold str_value. by intros ->. Qed.

Lemma has_str_VStr s : has_str (VStr s).
Proof. done. Qed.

Lemma append_sweep_vars_strings vs name :
  append_sweep_vars (VStr <$> vs) name
  = OK (name +:+ Str.concat ((fun v => "__" +:+ v) <$> vs)).
Proof.
  revert name. induction vs as [|v vs IH]; intros name; simpl.
  - by rewrite sapp_nil_r.
  - rewrite IH. f_equal. unfold Str.concat. simpl. by rewrite !sapp_assoc.
Qed.

(** The first argument that is not a string ends the loop: the message of
    the [TypeError] is built from it, which can itself raise. *)
Lemma append_sweep_vars_first_non_str pre v rest name :
  is_str v = false →
  append_sweep_vars ((VStr <$> pre) ++ v :: rest) name
  = rbind (py_str v)
      (fun shown => Err (Raise TypeError ("Argument " +:+ shown +:+ " must be a string!"))).
Proof.
  intros Hv. revert name. induction pre as [|s pre IH]; intros name.
  - by destruct v.
  - apply IH.
Qed.

Lemma first_non_str (args : list pyval) v :
  v ∈ args → is_str v = false →
  ∃ pre v' rest, args = (VStr <$> pre) ++ v' :: rest ∧ is_str v' = false.
Proof.
  intros Hin Hv. induction args as [|x args IH]; [by apply elem_of_nil in Hin|].
  destruct x as [s| | | |].
  2-5: by eexists [], _, args.
  apply elem_of_cons in Hin as [->|Hin]; [done|].
  destruct (IH Hin) as (pre & v' & rest & -> & Hv').
  by exists (s :: pre), v', rest.
Qed.

Lemma append_coordinates_app (coords : list (string * pyval)) more name w :
  Forall (fun kv => has_str kv.2) coords →
  append_coordinates (((fun kv => (VStr kv.1, kv.2)) <$> coords) ++ more) name w
  = append_coordinates more
      (name +:+ Str.concat
         ((fun kv => kv.1 +:+ "_" +:+ str_value kv.2 +:+ "_") <$> coords)) w.
Proof.
  intros Hcoords. revert name.
  induction Hcoords as [|[k v] coords Hv _ IH]; intros name.
  - by rewrite sapp_nil_r.
  - rewrite !fmap_cons. cbn [app append_coordinates fst snd].
    unfold has_str in Hv. simpl in Hv. rewrite Hv, IH. f_equal.
    change (Str.concat (?x :: ?l)) with (x +:+ Str.concat l).
    by rewrite !sapp_assoc.
Qed.

Lemma append_coordinates_strings (coords : list (string * pyval)) name w :
  Forall (fun kv => has_str kv.2) coords →
  append_coordinates ((fun kv => (VStr kv.1, kv.2)) <$> coords) name w
  = (OK (name +:+ Str.concat
           ((fun kv => kv.1 +:+ "_" +:+ str_value kv.2 +:+ "_") <$> coords)),
     w).
Proof.
  intros Hcoords.
  rewrite <- (app_nil_r (_ <$> coords)). by rewrite append_coordinates_app.
Qed.

End Namers.

(** C2. For a base name [b] without extension and sweep variables that are
    all strings, [getSweepOutputFolderName] returns [b + "_sweep"] followed
    by ["__" + v] for each variable [v] in call order (also when there is
    none). The first argument that is not a string ends the call: with
    [TypeError] when the f-string of the message can show the argument,
    and otherwise with the [ValueError] that showing it raises, which is
    the case of an [int] of more than 4300 digits. *)
Theorem getSweepOutputFolderName_spec (b : string) (args : list pyval) :
  bare_name b →
  (∀ vs : list string,
     args = VStr <$> vs →
     getSweepOutputFolderName b args
     = OK ((b +:+ "_sweep") +:+ Str.concat ((fun v => "__" +:+ v) <$> vs)))
  ∧ (∀ (pre : list string) (v : pyval) (rest : list pyval),
       args = (VStr <$> pre) ++ v :: rest → is_str v = false →
       (∀ shown, py_str v = OK shown →
          getSweepOutputFolderName b args
          = Err (Raise TypeError ("Argument " +:+ shown +:+ " must be a string!")))
       ∧ (∀ e, py_str v = Err e →
            getSweepOutputFolderName b args = Err e ∧ cls e = ValueError))
  ∧ getSweepOutputFolderName b [VInt str_digits_bound] = Err str_digits_error.
Proof.
  intros Hb. unfold getSweepOutputFolderName.
  rewrite (PathFacts.separateFileExtension_bare b Hb).
  cbv beta iota delta [rbind]. split_and!.
  - intros vs ->. apply append_sweep_vars_strings.
  - intros pre v rest -> Hv. rewrite append_sweep_vars_first_non_str by done.
    split.
    + by intros shown ->.
    + intros e He. rewrite He. split; [done|by eapply py_str_error_class].
  - rewrite (append_sweep_vars_first_non_str [] (VInt str_digits_bound) []) by done.
    assert (py_str (VInt str_digits_bound) = Err str_digits_error) as ->; [|done].
    by vm_compute.
Qed.

Lemma getSweepOutputFolderName_spec_witness :
  bare_name "device"
  ∧ getSweepOutputFolderName "device" [VStr "Width"; VStr "Bias"]
    = OK "device_sweep__Width__Bias"
  ∧ getSweepOutputFolderName "device" [] = OK "device_sweep"
  ∧ getSweepOutputFolderName "device" [VStr "Width"; VFloat "2.5"; VNone]
    = Err (Raise TypeError "Argument 2.5 must be a string!")
  ∧ getSweepOutputFolderName "device" [VInt str_digits_bound] = Err str_digits_error.
Proof.
  assert (bare_name "device") as Hb by (split; reflexivity).
  split_and!; [exact Hb | | | |].
  - exact (proj1 (getSweepOutputFolderName_spec "device" _ Hb) ["Width"; "Bias"] eq_refl).
  - exact (proj1 (getSweepOutputFolderName_spec "device" _ Hb) [] eq_refl).
  - exact (proj1 (proj1 (proj2 (getSweepOutputFolderName_spec "device" _ Hb))
                    ["Width"] (VFloat "2.5") [VNone] eq_refl eq_refl)
             "2.5" eq_refl).
  - exact (proj2 (proj2 (getSweepOutputFolderName_spec "device" [] Hb))).
Defined.

(** C3, as the code has it. For a base name [b] without extension, the
    pairs of the sweep coordinates are handled in order. While the keys
    are strings and [str] converts the values, [key + "_" + str(value) +
    "_"] is appended to [b + "__"]; when this holds of every pair, the
    name is returned and nothing is written. The first pair of which it
    does not hold ends the call: a key that is not a string raises
    [TypeError]; a value that [str] does not convert is announced by the
    line [value cannot be converted to string!] and the [ValueError] of
    [str] is raised again. *)
Theorem getSweepOutputSubfolderName_spec
    (b : string) (sweepCoordinates : list (pyval * pyval)) (w : world) :
  bare_name b →
  (∀ coords : list (string * pyval),
     sweepCoordinates = (fun kv => (VStr kv.1, kv.2)) <$> coords →
     Forall (fun kv => has_str kv.2) coords →
     getSweepOutputSubfolderName b sweepCoordinates w
     = (OK ((b +:+ "__") +:+ Str.concat
              ((fun kv => kv.1 +:+ "_" +:+ str_value kv.2 +:+ "_") <$> coords)),
        w))
  ∧ (∀ (coords : list (string * pyval)) (key value : pyval)
       (rest : list (pyval * pyval)),
       sweepCoordinates
       = ((fun kv => (VStr kv.1, kv.2)) <$> coords) ++ (key, value) :: rest →
       Forall (fun kv => has_str kv.2) coords →
       (is_str key = false →
        getSweepOutputSubfolderName b sweepCoordinates w
        = (Err (Raise TypeError "key must be a string!"), w))
       ∧ (∀ e, is_str key = true → py_str value = Err e →
            getSweepOutputSubfolderName b sweepCoordinates w
            = (Err e,
               World (stdin w)
                 (stdout w ++ ["value cannot be converted to string!" +:+ Str.nl]))
            ∧ cls e = ValueError)).
Proof.
  intros Hb. unfold getSweepOutputSubfolderName, bind, lift.
  rewrite (PathFacts.separateFileExtension_bare b Hb). split.
  - intros coords -> Hcoords. by apply append_coordinates_strings.
  - intros coords key value rest -> Hcoords.
    rewrite append_coordinates_app by done. split.
    + intros Hkey. by destruct key.
    + intros e Hkey He. pose proof (py_str_error_class _ _ He) as Hcls.
      destruct key as [k| | | |]; try done.
      cbn [append_coordinates]. rewrite He, decide_True by done. done.
Qed.

Lemma getSweepOutputSubfolderName_spec_witness :
  bare_name "device"
  ∧ getSweepOutputSubfolderName "device"
      [(VStr "Width", VFloat "2.5"); (VStr "Doped", VBool true)] (World [] [])
    = (OK "device__Width_2.5_Doped_True_", World [] [])
  ∧ getSweepOutputSubfolderName "device"
      [(VStr "Width", VInt 12); (VInt 7, VNone)] (World [] [])
    = (Err (Raise TypeError "key must be a string!"), World [] [])
  ∧ getSweepOutputSubfolderName "device"
      [(VStr "Width", VInt 12); (VStr "N", VInt str_digits_bound); (VInt 7, VNone)]
      (World [] [])
    = (Err str_digits_error,
       World [] ([] ++ ["value cannot be converted to string!" +:+ Str.nl])).
Proof.
  assert (bare_name "device") as Hb by (split; reflexivity).
  assert (py_str (VInt str_digits_bound) = Err str_digits_error) as Hbig
    by (by vm_compute).
  split_and!; [exact Hb | | |].
  - apply (proj1 (getSweepOutputSubfolderName_spec "device" _ (World [] []) Hb)
             [("Width", VFloat "2.5"); ("Doped", VBool true)] eq_refl).
    repeat constructor.
  - apply (proj1 (proj2 (getSweepOutputSubfolderName_spec "device" _ (World [] []) Hb)
                    [("Width", VInt 12)] (VInt 7) VNone [] eq_refl
                    ltac:(repeat constructor))).
    reflexivity.
  - apply (proj2 (proj2 (getSweepOutputSubfolderName_spec "device" _ (World [] []) Hb)
                    [("Width", VInt 12)] (VStr "N") (VInt str_digits_bound)
                    [(VInt 7, VNone)] eq_refl ltac:(repeat constructor))
             str_digits_error eq_refl Hbig).
Defined.

(** C3 as stated fails at a value that [str] does not convert, an [int] of
    4301 digits: with string keys only, no name is returned, and with a
    later key that is not a string the error is not a [TypeError]. *)
Lemma sweep_value_without_string_counterexample :
  bare_name "device"
  ∧ getSweepOutputSubfolderName "device" [(VStr "N", VInt str_digits_bound)]
      (World [] [])
    = (Err str_digits_error,
       World [] ["value cannot be converted to string!" +:+ Str.nl])
  ∧ getSweepOutputSubfolderName "device"
      [(VStr "N", VInt str_digits_bound); (VInt 7, VNone)] (World [] [])
    = (Err str_digits_error,
       World [] ["value cannot be converted to string!" +:+ Str.nl])
  ∧ cls str_digits_error = ValueError
  ∧ cls str_digits_error ≠ TypeError.
Proof. by vm_compute. Qed.

(** C9. For every file name that [separateFileExtension] accepts, with
    base name [b], and an engine whose output directory is configured:
    [getSweepOutputFolderPath] without sweep variables raises the
    missing-argument [ValueError], while [getSweepOutputFolderName]
    without sweep variables returns [b + "_sweep"]. *)
Theorem zero_sweep_variables_asymmetry
    (nn : nextnanopy) (filename software b ext outputdirectory : string) :
  separateFileExtension filename = OK (b, ext) →
  config_get nn software "outputdirectory" = OK outputdirectory →
  getSweepOutputFolderPath nn filename software []
  = Err (Raise ValueError "Sweep variable string is missing in the argument!")
  ∧ getSweepOutputFolderName filename [] = OK (b +:+ "_sweep").
Proof.
  intros Hsep Hcfg. unfold getSweepOutputFolderPath, getSweepOutputFolderName.
  by rewrite Hsep; simpl; rewrite Hcfg.
Qed.

Lemma zero_sweep_variables_asymmetry_witness :
  getSweepOutputFolderPath (sample_nn []) "runs/device.in" "nextnano++" []
  = Err (Raise ValueError "Sweep variable string is missing in the argument!")
  ∧ getSweepOutputFolderName "runs/device.in" [] = OK "device_sweep".
Proof.
  apply (zero_sweep_variables_asymmetry (sample_nn []) "runs/device.in"
           "nextnano++" "device" ".in" "/output/nextnano++");
    reflexivity.
Defined.

(** ** Engine detection *)

Section Detection.

Lemma scan_line_early line vars :
  early_exit_marker line = true →
  scan_line line vars
  = (assign (early_exit_engine line).1 (early_exit_engine line).2, true).
Proof.
  unfold early_exit_marker, early_exit_engine, scan_line.
  destruct (Str.contains "simulation-flow-control" line); [done|].
  destruct (Str.contains "run{" line); [done|].
  by destruct (Str.contains "<nextnano.NEGF" line).
Qed.

Lemma scan_line_overwrite line vars :
  early_exit_marker line = false → overwrite_marker line = true →
  scan_line line vars
  = (assign (overwrite_engine line).1 (overwrite_engine line).2, false).
Proof.
  unfold early_exit_marker, overwrite_marker, overwrite_engine, scan_line.
  destruct (Str.contains "simulation-flow-control" line); [done|].
  destruct (Str.contains "run{" line); [done|].
  destruct (Str.contains "<nextnano.NEGF" line); [done|]. intros _.
  destruct (Str.contains "nextnano.NEGF{" line); [done|].
  destruct (Str.contains "<nextnano.MSB" line); [done|].
  by destruct (Str.contains "nextnano.MSB{" line).
Qed.

Lemma scan_line_none line vars :
  early_exit_marker line = false → overwrite_marker line = false →
  scan_line line vars = (vars, false).
Proof.
  unfold early_exit_marker, overwrite_marker, scan_line.
  destruct (Str.contains "simulation-flow-control" line); [done|].
  destruct (Str.contains "run{" line); [done|].
  destruct (Str.contains "<nextnano.NEGF" line); [done|]. intros _.
  destruct (Str.contains "nextnano.NEGF{" line); [done|].
  destruct (Str.contains "<nextnano.MSB" line); [done|].
  by destruct (Str.contains "nextnano.MSB{" line).
Qed.

(** A line without early-exit marker does not leave the loop. *)
Lemma scan_line_continue line vars :
  early_exit_marker line = false → (scan_line line vars).2 = false.
Proof.
  intros He. destruct (overwrite_marker line) eqn:Ho.
  - by rewrite scan_line_overwrite.
  - by rewrite scan_line_none.
Qed.

Lemma scan_app pre rest vars :
  Forall (fun l => early_exit_marker l = false) pre →
  scan (pre ++ rest) vars = scan rest (scan pre vars).
Proof.
  intros Hpre. revert vars.
  induction Hpre as [|l pre Hl _ IH]; intros vars; [done|]. simpl.
  pose proof (scan_line_continue l vars Hl) as Hc.
  destruct (scan_line l vars) as [vars' brk]. simpl in Hc. subst brk. apply IH.
Qed.

(** The first line with an early-exit marker decides, whatever precedes
    and follows it. *)
Lemma scan_first_early pre line post vars :
  Forall (fun l => early_exit_marker l = false) pre →
  early_exit_marker line = true →
  scan (pre ++ line :: post) vars
  = assign (early_exit_engine line).1 (early_exit_engine line).2.
Proof.
  intros Hpre Hline. rewrite scan_app by done. simpl.
  by rewrite scan_line_early.
Qed.

Lemma scan_unmarked file vars :
  Forall (fun l => early_exit_marker l = false ∧ overwrite_marker l = false) file →
  scan file vars = vars.
Proof.
  induction 1 as [|l file [He Ho] _ IH]; [done|]. simpl.
  by rewrite scan_line_none.
Qed.

(** Without early-exit marker, the last overwrite-class line decides. *)
Lemma scan_last_overwrite pre line post vars :
  Forall (fun l => early_exit_marker l = false) (pre ++ line :: post) →
  overwrite_marker line = true →
  Forall (fun l => overwrite_marker l = false) post →
  scan (pre ++ line :: post) vars
  = assign (overwrite_engine line).1 (overwrite_engine line).2.
Proof.
  intros [Hpre [Hline Hpost]%Forall_cons]%Forall_app Ho Hquiet.
  rewrite scan_app by done. simpl. rewrite scan_line_overwrite by done.
  apply scan_unmarked. by apply Forall_and.
Qed.

Lemma scan_flow_control pre line post vars :
  Forall (fun l => Str.contains "run{" l = false
                   ∧ Str.contains "<nextnano.NEGF" l = false) pre →
  Str.contains "simulation-flow-control" line = true →
  scan (pre ++ line :: post) vars = assign "nextnano3" ".in".
Proof.
  intros Hpre Hline. revert vars.
  induction Hpre as [|l pre [Hrun Hnegf] _ IH]; intros vars; simpl.
  - unfold scan_line. by rewrite Hline.
  - unfold scan_line at 1. rewrite Hrun, Hnegf.
    destruct (Str.contains "simulation-flow-control" l); [done|].
    destruct (Str.contains "nextnano.NEGF{" l); [apply IH|].
    destruct (Str.contains "<nextnano.MSB" l); [apply IH|].
    destruct (Str.contains "nextnano.MSB{" l); apply IH.
Qed.

Context (fs : filesystem) (inputfile : InputFile) (content : string).
Hypothesis Hfile : fs !! fullpath inputfile = Some content.

Lemma detect_assigned sw ext w :
  scan (File.lines content) (Locals None None) = assign sw ext →
  sw ≠ "" →
  detect_software_new fs inputfile w = (OK (sw, ext), reported sw w).
Proof using Hfile.
  intros Hscan Hsw. unfold detect_software_new, File.open_lines, bind, ret, lift.
  rewrite Hfile, Hscan. simpl.
  by apply String.eqb_neq in Hsw as ->.
Qed.

Lemma detect_unassigned w :
  scan (File.lines content) (Locals None None) = Locals None None →
  ∃ e, detect_software_new fs inputfile w = (Err e, w)
       ∧ cls e = UnboundLocalError.
Proof using Hfile.
  intros Hscan. unfold detect_software_new, File.open_lines, bind, ret, lift.
  rewrite Hfile, Hscan. simpl. eauto.
Qed.

Lemma early_exit_engine_named line : (early_exit_engine line).1 ≠ "".
Proof. unfold early_exit_engine. by repeat case_match. Qed.

Lemma overwrite_engine_named line : (overwrite_engine line).1 ≠ "".
Proof. unfold overwrite_engine. by repeat case_match. Qed.

End Detection.

(** C1. On an input file that exists and has no engine marker on any
    line, [detect_software_new] raises [UnboundLocalError] when it reads
    the never-assigned variable [software], and writes nothing: the
    [NextnanoInputFileError] of the following line is not reached. A
    missing file raises [FileNotFoundError]. *)
Theorem detect_software_new_without_marker
    (fs : filesystem) (inputfile : InputFile) (w : world) :
  (fs !! fullpath inputfile = None →
   detect_software_new fs inputfile w
   = (Err (Raise FileNotFoundError
             ("Input file " +:+ fullpath inputfile +:+ " not found!")), w))
  ∧ (∀ content,
       fs !! fullpath inputfile = Some content →
       Forall (fun line => early_exit_marker line = false
                           ∧ overwrite_marker line = false)
         (File.lines content) →
       ∃ e, detect_software_new fs inputfile w = (Err e, w)
            ∧ cls e = UnboundLocalError
            ∧ cls e ≠ NextnanoInputFileError).
Proof.
  split.
  - intros Hnone. unfold detect_software_new, File.open_lines, bind.
    by rewrite Hnone.
  - intros content Hfile Hno.
    destruct (detect_unassigned fs inputfile content Hfile w) as (e & He & Hcls).
    { by apply scan_unmarked. }
    exists e. rewrite Hcls. done.
Qed.

Lemma detect_software_new_without_marker_witness :
  (∃ e, detect_software_new sample_fs {| fullpath := "notes.in" |} (World [] [])
        = (Err e, World [] [])
        ∧ cls e = UnboundLocalError
        ∧ cls e ≠ NextnanoInputFileError)
  ∧ detect_software_new sample_fs {| fullpath := "absent.in" |} (World [] [])
    = (Err (Raise FileNotFoundError "Input file absent.in not found!"), World [] []).
Proof.
  split.
  - apply (proj2 (detect_software_new_without_marker sample_fs
                    {| fullpath := "notes.in" |} (World [] []))
             ("no engine here" +:+ Str.nl)).
    + reflexivity.
    + repeat constructor.
  - apply (proj1 (detect_software_new_without_marker sample_fs
                    {| fullpath := "absent.in" |} (World [] []))).
    reflexivity.
Defined.

(** The scan never assigns the empty string to [software]. *)
Lemma scan_named file vars :
  software vars ≠ Some "" → software (scan file vars) ≠ Some "".
Proof.
  revert vars. induction file as [|l file IH]; intros vars Hv; [done|]. simpl.
  unfold scan_line.
  repeat (case_match; simplify_eq/=; try done; try (by apply IH)).
Qed.

(** The error announced for an undetectable engine is never raised. *)
Lemma detect_software_new_never_input_file_error fs inputfile w e w' :
  detect_software_new fs inputfile w = (Err e, w') →
  cls e ≠ NextnanoInputFileError.
Proof.
  unfold detect_software_new, File.open_lines, bind, ret, lift, raise.
  destruct (fs !! fullpath inputfile) as [content|]; simpl;
    [|by intros [= <- _]].
  pose proof (scan_named (File.lines content) (Locals None None)) as Hinv.
  destruct (scan _ _) as [[sw|] ext]; simpl in *; [|by intros [= <- _]].
  destruct (String.eqb_spec sw "") as [->|Hne]; [by destruct Hinv|].
  unfold print, write. simpl. destruct ext; simpl; [done|by intros [= <- _]].
Qed.

(** C6, as the code has it. Let the file exist. (1) The scan stops at the
    first line with an early-exit marker ([simulation-flow-control],
    [run{], [<nextnano.NEGF]): that line decides the engine, whatever the
    lines after it hold and whatever overwrite-class markers precede it.
    (2) Overwrite-class markers do not stop the scan: in a file without
    early-exit marker the last line with such a marker decides. (3) A line
    with [run{] and without [simulation-flow-control], with no early-exit
    marker on an earlier line, gives nextnano++ and [.in]. (4) A line with
    [simulation-flow-control], with neither [run{] nor [<nextnano.NEGF] on
    an earlier line, gives nextnano3 and [.in]. *)
Theorem detect_software_new_precedence
    (fs : filesystem) (inputfile : InputFile) (content : string) (w : world)
    (pre : list string) (line : string) (post : list string) :
  fs !! fullpath inputfile = Some content →
  File.lines content = pre ++ line :: post →
  (Forall (fun l => early_exit_marker l = false) pre →
   early_exit_marker line = true →
   detect_software_new fs inputfile w
   = (OK (early_exit_engine line), reported (early_exit_engine line).1 w))
  ∧ (Forall (fun l => early_exit_marker l = false) (pre ++ line :: post) →
     overwrite_marker line = true →
     Forall (fun l => overwrite_marker l = false) post →
     detect_software_new fs inputfile w
     = (OK (overwrite_engine line), reported (overwrite_engine line).1 w))
  ∧ (Forall (fun l => early_exit_marker l = false) pre →
     Str.contains "run{" line = true →
     Str.contains "simulation-flow-control" line = false →
     detect_software_new fs inputfile w
     = (OK ("nextnano++", ".in"), reported "nextnano++" w))
  ∧ (Forall (fun l => Str.contains "run{" l = false
                      ∧ Str.contains "<nextnano.NEGF" l = false) pre →
     Str.contains "simulation-flow-control" line = true →
     detect_software_new fs inputfile w
     = (OK ("nextnano3", ".in"), reported "nextnano3" w)).
Proof.
  intros Hfile Hlines.
  assert (∀ engine : string * string,
            engine.1 ≠ "" →
            scan (pre ++ line :: post) (Locals None None) = assign engine.1 engine.2 →
            detect_software_new fs inputfile w = (OK engine, reported engine.1 w))
    as Hdetect.
  { intros [sw ext] Hsw Hscan. eapply detect_assigned; [done| |done].
    by rewrite Hlines. }
  split_and!.
  - intros Hpre Hline. apply Hdetect; [apply early_exit_engine_named|].
    by apply scan_first_early.
  - intros Hall Hline Hpost. apply Hdetect; [apply overwrite_engine_named|].
    by apply scan_last_overwrite.
  - intros Hpre Hrun Hflow. apply (Hdetect ("nextnano++", ".in")); [done|].
    rewrite scan_first_early; [|done|].
    + unfold early_exit_engine. by rewrite Hflow, Hrun.
    + unfold early_exit_marker. rewrite Hrun. by rewrite orb_true_r.
  - intros Hpre Hflow. apply (Hdetect ("nextnano3", ".in")); [done|].
    by apply scan_flow_control.
Qed.

Lemma detect_software_new_precedence_witness :
  detect_software_new sample_fs {| fullpath := "qcl.in" |} (World [] [])
  = (OK ("nextnano++", ".in"), reported "nextnano++" (World [] []))
  ∧ detect_software_new sample_fs {| fullpath := "msb.negf" |} (World [] [])
    = (OK ("nextnano.NEGF++", ".negf"), reported "nextnano.NEGF++" (World [] [])).
Proof.
  split.
  - apply (proj1 (proj2 (proj2
      (detect_software_new_precedence sample_fs {| fullpath := "qcl.in" |}
         (("# quantum cascade laser" +:+ Str.nl) +:+ ("run{ }" +:+ Str.nl)
          +:+ "simulation-flow-control")
         (World [] [])
         ["# quantum cascade laser" +:+ Str.nl] ("run{ }" +:+ Str.nl)
         ["simulation-flow-control"] eq_refl eq_refl))));
      [repeat constructor | reflexivity | reflexivity].
  - apply (proj1 (proj2
      (detect_software_new_precedence sample_fs {| fullpath := "msb.negf" |}
         (("<nextnano.MSB>" +:+ Str.nl) +:+ "nextnano.NEGF{")
         (World [] [])
         ["<nextnano.MSB>" +:+ Str.nl] "nextnano.NEGF{" [] eq_refl eq_refl)));
      [repeat constructor | reflexivity | constructor].
Defined.

(** C6 as stated fails: in this file [simulation-flow-control] comes
    before any [run{] (there is none), yet the first line's
    [<nextnano.NEGF] ends the scan and the engine found is nextnano.NEGF. *)
Lemma flow_control_before_run_counterexample :
  sample_fs !! "negf.xml"
  = Some (("<nextnano.NEGF>" +:+ Str.nl) +:+ "simulation-flow-control")
  ∧ File.lines (("<nextnano.NEGF>" +:+ Str.nl) +:+ "simulation-flow-control")
    = ["<nextnano.NEGF>" +:+ Str.nl; "simulation-flow-control"]
  ∧ Str.contains "simulation-flow-control" "simulation-flow-control" = true
  ∧ Str.contains "run{" ("<nextnano.NEGF>" +:+ Str.nl) = false
  ∧ Str.contains "run{" "simulation-flow-control" = false
  ∧ detect_software_new sample_fs {| fullpath := "negf.xml" |} (World [] [])
    = (OK ("nextnano.NEGF", ".xml"), reported "nextnano.NEGF" (World [] []))
  ∧ detect_software_new sample_fs {| fullpath := "negf.xml" |} (World [] [])
    ≠ (OK ("nextnano3", ".in"), reported "nextnano3" (World [] [])).
Proof. by vm_compute. Qed.

(** ** The output file resolver *)

Section ResolverFacts.
Import StrFacts.

Variable nn : nextnanopy.
Variable py : interpreter.

Lemma elem_of_list_of_set (X : gset string) file :
  file ∈ list_of_set py X ↔ file ∈ X.
Proof. by rewrite (list_of_set_perm py X), elem_of_elements. Qed.

Lemma NoDup_list_of_set (X : gset string) : NoDup (list_of_set py X).
Proof. rewrite (list_of_set_perm py X). apply NoDup_elements. Qed.

Lemma list_comprehension_OK {A B} (f : A → result B) l ys :
  Forall2 (fun x y => f x = OK y) l ys → list_comprehension f l = OK ys.
Proof. induction 1 as [|x y l ys Hx _ IH]; simpl; [done|]. by rewrite Hx, IH. Qed.


(** The loop [candidates = s.intersection(candidates)]. *)
Lemma elem_of_intersect_all (sets : list (gset string)) (first : gset string) file :
  file ∈ foldl (fun candidates s => s ∩ candidates) first sets
  ↔ file ∈ first ∧ Forall (fun s => file ∈ s) sets.
Proof.
  revert first. induction sets as [|s sets IH]; intros first; simpl.
  - rewrite Forall_nil. tauto.
  - rewrite IH, Forall_cons, elem_of_intersection. tauto.
Qed.

Lemma search_list keywords results folder_path :
  keywords ≠ [] →
  Forall2 (fun keyword found => DataFolder_find nn folder_path keyword = OK found)
    keywords results →
  ∃ files, search nn py (KwList keywords) folder_path = OK files
           ∧ NoDup files
           ∧ ∀ file, file ∈ files ↔ Forall (fun found => file ∈ found) results.
Proof.
  intros Hne Hfind. unfold search.
  rewrite (list_comprehension_OK _ keywords
             ((list_to_set : list string → gset string) <$> results)).
  2:{ clear Hne. induction Hfind as [|k r ks rs Hk _ IH]; simpl;
        constructor; [by rewrite Hk|done]. }
  destruct Hfind as [|k r ks rs Hk Hrest]; [done|]. simpl.
  eexists. split_and!; [done|apply NoDup_list_of_set|].
  intros file. rewrite elem_of_list_of_set, elem_of_intersect_all.
  rewrite elem_of_intersection, elem_of_list_to_set, !Forall_cons, Forall_fmap.
  assert (Forall (fun found : list string => file ∈ found) rs
          ↔ Forall ((fun s : gset string => file ∈ s) ∘ list_to_set) rs) as <-.
  { apply Forall_proper; [|done]. intros found. simpl.
    by rewrite elem_of_list_to_set. }
  tauto.
Qed.



(** *** The chooser *)

Lemma choose_rejects n bad typed written :
  Forall (rejected n) bad →
  choose n (bad ++ typed) written = choose n typed (written ++ retries bad).
Proof.
  intros Hbad. revert written.
  induction Hbad as [|x bad [Hq Hx] _ IH]; intros written.
  { by rewrite app_nil_r. }
  simpl. apply String.eqb_neq in Hq as ->.
  unfold retries. simpl. unfold retry_message, prompt.
  destruct (Int.parse x) as [i|].
  - assert ((i <? 0) || (n <=? i) = true) as ->.
    { apply orb_true_iff. destruct Hx; [left|right]; lia. }
    rewrite IH. f_equal. by rewrite <- !app_assoc.
  - rewrite IH. f_equal. by rewrite <- !app_assoc.
Qed.

Lemma choose_quit n typed written :
  choose n ("q" :: typed) written
  = (Err (Raise RuntimeError "Nextnanopy terminated."),
     World typed (written ++ [prompt])).
Proof. done. Qed.

Lemma choose_accepts n x i typed written :
  accepted n x i →
  choose n (x :: typed) written = (OK i, World typed (written ++ [prompt])).
Proof.
  intros (Hq & Hx & Hi). simpl. apply String.eqb_neq in Hq as ->.
  rewrite Hx. assert ((i <? 0) || (n <=? i) = false) as ->; [|done].
  apply orb_false_iff. lia.
Qed.

Lemma choose_error n typed written e w' :
  choose n typed written = (Err e, w') →
  cls e = RuntimeError ∨ cls e = EOFError.
Proof.
  revert written. induction typed as [|x typed IH]; intros written; simpl.
  - intros [= <- _]. by right.
  - destruct (String.eqb x "q"); [intros [= <- _]; by left|].
    destruct (Int.parse x) as [i|]; [|apply IH].
    destruct ((i <? 0) || (n <=? i)); [apply IH|done].
Qed.

Lemma choose_range n typed written i w' :
  choose n typed written = (OK i, w') → 0 ≤ i < n.
Proof.
  revert written. induction typed as [|x typed IH]; intros written; simpl; [done|].
  destruct (String.eqb x "q"); [done|].
  destruct (Int.parse x) as [j|]; [|apply IH].
  destruct ((j <? 0) || (n <=? j)) eqn:E; [apply IH|].
  intros [= <- _]. apply orb_false_iff in E. lia.
Qed.

(** The chooser obeys the equation of the [while] loop, written with
    [input] and [print]. *)
Lemma choose_index_loop n w :
  choose_index n w
  = (do! choice := input "Enter the index of data you need: " in
     if String.eqb choice "q" then
       raise (Raise RuntimeError "Nextnanopy terminated.")
     else
       match Int.parse choice with
       | None => print "Invalid input. (Type 'q' to quit)" >>; choose_index n
       | Some choice =>
           if (choice <? 0) || (n <=? choice) then
             print "Index out of bounds. Type 'q' to quit" >>; choose_index n
           else ret choice
       end) w.
Proof.
  destruct w as [[|x typed] written]; [done|].
  unfold choose_index, input, bind, write, print, raise, ret. simpl.
  destruct (String.eqb x "q"); [done|].
  destruct (Int.parse x) as [i|]; [|done].
  by destruct ((i <? 0) || (n <=? i)).
Qed.

(** *** The listing of the candidates *)

Lemma for_each_print_choice (numbered : list (Z * string)) w :
  for_each numbered print_choice w
  = (OK tt,
     World (stdin w)
       (stdout w ++
          ((fun numbered : Z * string =>
              ("Choice " +:+ decimal numbered.1 +:+ ": "
               +:+ posixpath.split_tail numbered.2) +:+ Str.nl) <$> numbered))).
Proof.
  revert w. induction numbered as [|[count file] l IH]; intros [typed written]; simpl.
  - by rewrite app_nil_r.
  - unfold bind at 1. unfold print_choice at 1. unfold print, write.
    simpl. rewrite IH. simpl. by rewrite <- app_assoc.
Qed.

Lemma py_index_lookup {A} (l : list A) i x :
  0 ≤ i → l !! Z.to_nat i = Some x → py_index l i = OK x.
Proof.
  intros Hi Hx. unfold py_index.
  assert ((i <? 0) = false) as Hlt by (by apply Z.ltb_ge).
  cbv zeta. by rewrite !Hlt, Hx.
Qed.

(** *** The resolver, phase by phase *)

Lemma getDataFile_in_folder_unfold keywords folder_path software w shown :
  show_keywords keywords = OK shown →
  getDataFile_in_folder nn py keywords folder_path software w
  = let started := World (stdin w) (stdout w ++ [searching shown]) in
    match search nn py keywords folder_path with
    | Err e => (Err e, started)
    | OK [] =>
        (Err (Raise FileNotFoundError
                ("No output file found with keyword(s) '" +:+ shown +:+ "'!")),
         started)
    | OK [file] =>
        (open_datafile nn file software,
         World (stdin w) (stdout started ++ found py file))
    | OK files =>
        match choose (Z.of_nat (length files)) (stdin w)
                (stdout w ++ announced shown files) with
        | (Err e, w') => (Err e, w')
        | (OK choice, w') =>
            match py_index files choice with
            | Err e => (Err e, w')
            | OK file =>
                (open_datafile nn file software,
                 World (stdin w') (stdout w' ++ found py file))
            end
        end
    end.
Proof.
  intros Hshown. unfold getDataFile_in_folder. rewrite Hshown.
  unfold bind at 1. unfold lift at 1. unfold bind at 1.
  unfold print at 1, write at 1. unfold bind at 1. unfold lift at 1.
  fold (searching shown). cbv zeta.
  destruct (search nn py keywords folder_path) as [files|e]; [|done].
  destruct files as [|file [|file' files]].
  - done.
  - unfold bind at 1. simpl bool_decide. cbv iota. unfold py_index, lift at 1.
    simpl. unfold found, bind, print, write, ret, lift.
    destruct (debug py); simpl; [done|by rewrite app_nil_r].
  - unfold bind at 1.
    assert (bool_decide (length (file :: file' :: files) = 0%nat) = false) as -> by done.
    assert (bool_decide (length (file :: file' :: files) = 1%nat) = false) as -> by done.
    unfold bind at 1. unfold print at 1, write at 1. unfold bind at 1.
    rewrite for_each_print_choice. unfold bind at 1. unfold choose_index.
    cbn [stdin stdout]. unfold announced. rewrite <- !app_assoc.
    change ([searching shown] ++ ?a :: ?l) with (searching shown :: a :: l).
    destruct (choose _ _ _) as [[choice|e] [typed written]]; [|done].
    unfold lift at 1.
    destruct (py_index _ choice) as [chosen|e]; [|done].
    unfold found, bind, print, write, ret, lift.
    destruct (debug py); simpl; [done|by rewrite app_nil_r].
Qed.

End ResolverFacts.

Module ReprFacts.
Import StrFacts.








End ReprFacts.

(** C10. With [keywords] the empty list, [getDataFile_in_folder] raises
    [IndexError] at [list_of_sets[0]], after its first line of output;
    this is neither the [FileNotFoundError] of an empty search nor the
    [TypeError] of a wrong argument type. *)
Theorem empty_keyword_list_index_error
    (nn : nextnanopy) (py : interpreter) (folder_path software : string) (w : world) :
  getDataFile_in_folder nn py (KwList []) folder_path software w
  = (Err (Raise IndexError "list index out of range"),
     World (stdin w) (stdout w ++ [searching "[]"]))
  ∧ IndexError ≠ FileNotFoundError
  ∧ IndexError ≠ TypeError.
Proof. by rewrite (getDataFile_in_folder_unfold nn py _ _ _ _ "[]"). Qed.

(** C4. For a non-empty list of keywords whose sub-searches succeed, the
    files that the search of [getDataFile_in_folder] leaves are, each once,
    exactly those found for every keyword: the intersection of the
    per-keyword results. A single [str] keyword gives the result of its
    one search as it is. Over the names energy_electron.dat,
    energy_hole.dat and potential.dat, the keywords energy and electron
    leave energy_electron.dat alone. *)
Theorem search_keywords_intersection
    (nn : nextnanopy) (py : interpreter) (folder_path : string) :
  (∀ (keywords : list string) (results : list (list string)),
     keywords ≠ [] →
     Forall2 (fun keyword found => DataFolder_find nn folder_path keyword = OK found)
       keywords results →
     ∃ files, search nn py (KwList keywords) folder_path = OK files
              ∧ NoDup files
              ∧ ∀ file, file ∈ files ↔ Forall (fun found => file ∈ found) results)
  ∧ (∀ keyword : string,
       search nn py (KwVal (VStr keyword)) folder_path
       = DataFolder_find nn folder_path keyword)
  ∧ search (sample_nn energy_folder) py (KwList ["energy"; "electron"]) folder_path
    = OK ["energy_electron.dat"].
Proof.
  split_and!.
  - intros keywords results. apply search_list.
  - done.
  - destruct (search_list (sample_nn energy_folder) py ["energy"; "electron"]
                [["energy_electron.dat"; "energy_hole.dat"]; ["energy_electron.dat"]]
                folder_path) as (files & -> & Hnodup & Hfiles); [done| |].
    { by repeat constructor. }
    f_equal. apply Permutation_singleton_r, NoDup_Permutation; [done|apply NoDup_singleton|].
    intros file. rewrite Hfiles, !Forall_cons, Forall_nil, !elem_of_cons, !elem_of_nil.
    split; [|intros [->|[]]; tauto]. intros [_ [[->|[]] _]]. by left.
Qed.

Lemma search_keywords_intersection_witness :
  ∃ files,
    search (sample_nn energy_folder) sample_py (KwList ["energy"; "hole"]) "out"
    = OK files
    ∧ NoDup files
    ∧ ∀ file, file ∈ files ↔
        Forall (fun found => file ∈ found)
          [["energy_electron.dat"; "energy_hole.dat"]; ["energy_hole.dat"]].
Proof.
  apply (proj1 (search_keywords_intersection (sample_nn energy_folder) sample_py "out")
           ["energy"; "hole"]).
  - discriminate.
  - repeat constructor.
Defined.


(** Keywords that the first f-string cannot show end the call there. *)
Lemma getDataFile_in_folder_not_shown nn py keywords folder_path software w e :
  show_keywords keywords = Err e →
  getDataFile_in_folder nn py keywords folder_path software w = (Err e, w)
  ∧ cls e = ValueError
  ∧ ∃ z, keywords = KwVal (VInt z) ∧ exceeds_str_digits z = true.
Proof.
  intros He. unfold getDataFile_in_folder, bind, lift. rewrite He.
  destruct keywords as [v|l]; [|done]. simpl in He.
  destruct (py_str_error _ _ He) as (-> & z & -> & Hz). eauto.
Qed.




(** C8. With several candidates, let the lines typed be rejected ones
    (neither the quit signal nor an index within range), each answered by
    a retry message and a new prompt, and then one more line. If that line
    is [q], the call raises the [RuntimeError] of a terminated session. If
    it is a valid index, the loop ends there, the later lines stay unread,
    and the call goes on with the candidate at that index. *)
Theorem chooser_resolution
    (nn : nextnanopy) (py : interpreter) (keywords : keywords_arg)
    (folder_path software : string) (w : world)
    (shown : string) (files bad : list string) (typed : string) (rest : list string) :
  show_keywords keywords = OK shown →
  search nn py keywords folder_path = OK files →
  (2 ≤ length files)%nat →
  stdin w = bad ++ typed :: rest →
  Forall (rejected (Z.of_nat (length files))) bad →
  (typed = "q" →
   getDataFile_in_folder nn py keywords folder_path software w
   = (Err (Raise RuntimeError "Nextnanopy terminated."),
      World rest (stdout w ++ announced shown files ++ retries bad ++ [prompt])))
  ∧ (∀ choice,
       accepted (Z.of_nat (length files)) typed choice →
       ∃ file,
         files !! Z.to_nat choice = Some file
         ∧ getDataFile_in_folder nn py keywords folder_path software w
           = (open_datafile nn file software,
              World rest (stdout w ++ announced shown files ++ retries bad
                          ++ [prompt] ++ found py file))).
Proof.
  intros Hshown Hsearch Hlen Htyped Hbad.
  rewrite (getDataFile_in_folder_unfold nn py _ _ _ _ shown Hshown), Hsearch.
  cbv zeta. destruct files as [|f [|g files]]; [simpl in Hlen; lia..|].
  rewrite Htyped, (choose_rejects _ _ _ _ Hbad). split.
  - intros ->. rewrite choose_quit. by rewrite <- !app_assoc.
  - intros choice Hchoice. rewrite (choose_accepts _ _ _ _ _ Hchoice).
    destruct Hchoice as (_ & _ & Hrange).
    destruct (lookup_lt_is_Some_2 (f :: g :: files) (Z.to_nat choice)) as [file Hfile];
      [lia|].
    exists file. split; [done|].
    rewrite (py_index_lookup _ _ _ (proj1 Hrange) Hfile). cbn [stdin stdout].
    by rewrite <- !app_assoc.
Qed.

Lemma chooser_resolution_witness :
  getDataFile_in_folder (sample_nn energy_folder) sample_py (KwVal (VStr "energy"))
    "out" "nextnano++"
    (World ["5"; "two"; "-1"; repeated "0" 4301 +:+ "1"; " 1 "; "0"] [])
  = (OK ("energy_hole.dat", "nextnano++"),
     World ["0"]
       ([] ++ announced "energy" ["energy_electron.dat"; "energy_hole.dat"]
        ++ retries ["5"; "two"; "-1"; repeated "0" 4301 +:+ "1"] ++ [prompt]
        ++ found sample_py "energy_hole.dat"))
  ∧ getDataFile_in_folder (sample_nn energy_folder) sample_py (KwVal (VStr "energy"))
      "out" "nextnano++" (World ["5"; "q"; "1"] [])
    = (Err (Raise RuntimeError "Nextnanopy terminated."),
       World ["1"]
         ([] ++ announced "energy" ["energy_electron.dat"; "energy_hole.dat"]
          ++ retries ["5"] ++ [prompt])).
Proof.
  assert (∀ x : string, x ≠ "q" → Int.parse x = None → rejected 2 x) as Hnone.
  { intros x Hq Hx. split; [done|]. by rewrite Hx. }
  assert (∀ x i, x ≠ "q" → Int.parse x = Some i → i < 0 ∨ 2 ≤ i → rejected 2 x) as Hout.
  { intros x i Hq Hx Hi. split; [done|]. by rewrite Hx. }
  split.
  - destruct (chooser_resolution (sample_nn energy_folder) sample_py
                (KwVal (VStr "energy")) "out" "nextnano++"
                (World ["5"; "two"; "-1"; repeated "0" 4301 +:+ "1"; " 1 "; "0"] [])
                "energy" ["energy_electron.dat"; "energy_hole.dat"]
                ["5"; "two"; "-1"; repeated "0" 4301 +:+ "1"] " 1 " ["0"])
      as [_ Hvalid];
      [reflexivity | reflexivity | simpl; lia | reflexivity | |].
    { constructor; [apply (Hout "5" 5); [discriminate|reflexivity|lia]|].
      constructor; [apply (Hnone "two"); [discriminate|reflexivity]|].
      constructor; [apply (Hout "-1" (-1)); [discriminate|reflexivity|lia]|].
      constructor;
        [apply (Hnone (repeated "0" 4301 +:+ "1")); vm_compute; [discriminate|reflexivity]|].
      constructor. }
    destruct (Hvalid 1) as (file & Hfile & Hrun).
    { split_and!; [discriminate | reflexivity | lia | simpl; lia]. }
    injection Hfile as <-. exact Hrun.
  - destruct (chooser_resolution (sample_nn energy_folder) sample_py
                (KwVal (VStr "energy")) "out" "nextnano++"
                (World ["5"; "q"; "1"] [])
                "energy" ["energy_electron.dat"; "energy_hole.dat"]
                ["5"] "q" ["1"]) as [Hquit _];
      [reflexivity | reflexivity | simpl; lia | reflexivity | |].
    { constructor; [apply (Hout "5" 5); [discriminate|reflexivity|lia]|].
      constructor. }
    by apply Hquit.
Defined.

(** ** Examples *)

(** One match: the file is returned and nothing is asked. *)
Example getDataFile_in_folder_single_match :
  getDataFile_in_folder (sample_nn energy_folder) sample_py (KwVal (VStr "potential"))
    "out" "nextnano++" (World ["unread"] [])
  = (OK ("potential.dat", "nextnano++"),
     World ["unread"] ([searching "potential"] ++ found sample_py "potential.dat")).
Proof. reflexivity. Qed.

(** A value that is neither a [str] nor a list. *)
Example getDataFile_in_folder_wrong_type :
  (getDataFile_in_folder (sample_nn energy_folder) sample_py (KwVal (VInt 3))
     "out" "nextnano++" (World [] [])).1
  = Err (Raise TypeError "Argument 'keywords' must be either str or list").
Proof. reflexivity. Qed.

Example getDataFile_by_name :
  (getDataFile (sample_nn energy_folder) sample_py (KwList ["energy"; "hole"])
     "runs/device.in" "nextnano++" (World [] [])).1
  = OK ("energy_hole.dat", "nextnano++").
Proof. reflexivity. Qed.

Example separateFileExtension_nested :
  separateFileExtension "out/run.1/device.negf" = OK ("device", ".negf").
Proof. reflexivity. Qed.

Example separateFileExtension_hidden :
  separateFileExtension "home/.profile" = OK (".profile", "").
Proof. reflexivity. Qed.

Example getSweepOutputFolderPath_joined :
  getSweepOutputFolderPath (sample_nn []) "runs/device.in" "nextnano3"
    [VStr "Width"; VStr "Bias"]
  = OK "/output/nextnano3/device_sweep__Width__Bias".
Proof. reflexivity. Qed.

Example int_parse_examples :
  Int.parse <$> ["1"; " 12 "; "+3"; "-0"; "1_0"; "007"; "_1"; "1_"; "1__0"; "";
                 "+"; "- 1"; "1 2"; "0x1"; "1.0"]
  = [Some 1; Some 12; Some 3; Some 0; Some 10; Some 7; None; None; None; None;
     None; None; None; None; None].
Proof. reflexivity. Qed.

Example carriage_returns_end_lines :
  File.lines ("run{" +:+ String "013" "simulation-flow-control" +:+ String "013" Str.nl)
  = ["run{" +:+ Str.nl; "simulation-flow-control" +:+ Str.nl].
Proof. reflexivity. Qed.

(** * Further properties *)

(** ** File names *)

Module MorePathFacts.
Import StrFacts PathFacts.

Lemma rfind_app c l r :
  Str.rfind c (l +:+ r)
  = if 0 <=? Str.rfind c r then Z.of_nat (String.length l) + Str.rfind c r
    else Str.rfind c l.
Proof.
  induction l as [|a l IH].
  - change ("" +:+ r) with r. pose proof (rfind_ge c r).
    destruct (0 <=? Str.rfind c r) eqn:E; [simpl; lia|].
    apply Z.leb_gt in E. simpl. lia.
  - rewrite sapp_cons. cbn [Str.rfind]. rewrite IH.
    pose proof (rfind_ge c r).
    destruct (0 <=? Str.rfind c r) eqn:E; [|done].
    apply Z.leb_le in E.
    assert ((0 <=? Z.of_nat (String.length l) + Str.rfind c r) = true) as ->
      by (apply Z.leb_le; lia).
    cbn [String.length]. lia.
Qed.

Lemma drop_app n l r :
  Str.drop (String.length l + n) (l +:+ r) = Str.drop n r.
Proof. induction l as [|a l IH]; [done|]. by rewrite sapp_cons. Qed.

Lemma take_app l r : Str.take (String.length l) (l +:+ r) = l.
Proof. induction l as [|a l IH]; [by destruct r|]. rewrite sapp_cons. simpl. by rewrite IH. Qed.

Lemma rfind_cons_last c r : Str.rfind c r = -1 → Str.rfind c (String c r) = 0.
Proof. intros H. cbn [Str.rfind]. rewrite H. simpl. by rewrite Ascii.eqb_refl. Qed.

(** The name after the last slash is what [split_tail] keeps. *)
Lemma split_tail_app dir name :
  Str.contains "/" name = false →
  posixpath.split_tail (dir +:+ "/" +:+ name) = name.
Proof.
  intros Hname%rfind_none. unfold posixpath.split_tail.
  change ("/" +:+ name) with (String "/" name).
  rewrite rfind_app, (rfind_cons_last _ _ Hname).
  change (0 <=? 0) with true. cbv iota.
  replace (Z.to_nat (Z.of_nat (String.length dir) + 0 + 1))
    with (String.length dir + 1)%nat by lia.
  by rewrite drop_app.
Qed.

Lemma last_char a c :
  Str.at_index a (Z.of_nat (String.length a) - 1) = String c "" →
  ∃ d, a = d +:+ String c "".
Proof.
  induction a as [|x a IH]; [done|].
  destruct a as [|y a].
  - intros [= ->]. by exists "".
  - intros H. destruct IH as [d ->]; [|by exists (String x d)].
    rewrite <- H. cbn [String.length]. unfold Str.at_index.
    assert (∀ n : nat, (Z.of_nat (S n) - 1 <? 0) = false) as Hn
      by (intros n; apply Z.ltb_ge; lia).
    rewrite !Hn.
    replace (Z.to_nat (Z.of_nat (S (S (String.length a))) - 1))
      with (S (Z.to_nat (Z.of_nat (S (String.length a)) - 1))) by lia.
    done.
Qed.

Lemma at_index_last_cons x t :
  t ≠ "" →
  Str.at_index (String x t) (Z.of_nat (String.length (String x t)) - 1)
  = Str.at_index t (Z.of_nat (String.length t) - 1).
Proof.
  destruct t as [|y s]; [done|]. intros _.
  cbn [String.length]. unfold Str.at_index.
  assert (∀ n : nat, (Z.of_nat (S n) - 1 <? 0) = false) as Hn
    by (intros n; apply Z.ltb_ge; lia).
  rewrite !Hn.
  replace (Z.to_nat (Z.of_nat (S (S (String.length s))) - 1))
    with (S (Z.to_nat (Z.of_nat (S (String.length s)) - 1))) by lia.
  done.
Qed.

Lemma last_char_app d c :
  Str.at_index (d +:+ String c "") (Z.of_nat (String.length (d +:+ String c "")) - 1)
  = String c "".
Proof.
  induction d as [|x d IH]; [done|]. rewrite sapp_cons.
  rewrite at_index_last_cons; [done|by destruct d].
Qed.

(** Joining a slash-free name to a folder and splitting again gives the
    name back. *)
Lemma split_tail_join a b :
  Str.contains "/" b = false →
  posixpath.split_tail (posixpath.join a b) = b.
Proof.
  intros Hb. unfold posixpath.join.
  assert (Str.startswith "/" b = false) as ->.
  { destruct b as [|x b]; [done|]. rewrite contains_char_cons in Hb.
    apply orb_false_iff in Hb as [Hx _]. cbn [Str.startswith]. by rewrite Hx. }
  destruct (String.eqb_spec a "") as [->|Ha]; simpl.
  { by apply split_tail_id. }
  destruct (String.eqb_spec (Str.at_index a (Z.of_nat (String.length a) - 1)) "/")
    as [Hlast|Hlast].
  - apply last_char in Hlast as [d ->]. rewrite sapp_assoc.
    by apply (split_tail_app d b).
  - by apply split_tail_app.
Qed.

Lemma separateFileExtension_app dir name :
  Str.contains "/" name = false →
  separateFileExtension (dir +:+ "/" +:+ name) = separateFileExtension name.
Proof.
  intros Hname. rewrite !separateFileExtension_unfold. simpl.
  by rewrite split_tail_app, split_tail_id.
Qed.

Lemma separateFileExtension_base filename b ext :
  separateFileExtension filename = OK (b, ext) → Str.contains "/" b = false.
Proof.
  rewrite separateFileExtension_unfold. simpl. case_bool_decide; [|done].
  intros [= Hsplit]. destruct (split_tail_spec filename) as (dir & _ & _ & Hsep).
  pose proof (splitext_app (posixpath.split_tail filename)) as Happ.
  rewrite Hsplit in Happ. simpl in Happ. rewrite <- Happ in Hsep.
  rewrite contains_char_app in Hsep. by apply orb_false_iff in Hsep as [? _].
Qed.

Lemma length_app l r :
  String.length (l +:+ r) = (String.length l + String.length r)%nat.
Proof. induction l as [|a l IH]; [done|]. rewrite sapp_cons. simpl. by rewrite IH. Qed.

Lemma drop_lt k p :
  (k < String.length p)%nat → ∃ c, Str.drop k p = String c (Str.drop (S k) p).
Proof.
  revert p. induction k as [|k IH]; intros [|a p] Hk; simpl in Hk; try lia.
  - by exists a.
  - apply IH. lia.
Qed.

(** The loop that skips leading dots, within the bounds of the string. *)
Lemma non_dot_before_spec p k n :
  (k + n ≤ String.length p)%nat →
  posixpath.non_dot_before p (Z.of_nat k) n
  = negb (all_dots (Str.take n (Str.drop k p))).
Proof.
  revert k. induction n as [|n IH]; intros k Hk; [done|].
  destruct (drop_lt k p) as [c Hc]; [lia|].
  cbn [posixpath.non_dot_before]. unfold Str.at_index.
  assert ((Z.of_nat k <? 0) = false) as -> by (apply Z.ltb_ge; lia).
  rewrite Nat2Z.id, Hc. cbn [Str.take all_dots].
  replace (Z.of_nat k + 1) with (Z.of_nat (S k)) by lia.
  rewrite IH by lia.
  destruct (Ascii.eqb_spec c ".") as [->|Hne]; [done|].
  assert (String.eqb (String c "") "." = false) as ->; [|done].
  apply String.eqb_neq. congruence.
Qed.

(** [splitext] on a name [stem.e]: the dot starts an extension unless the
    stem is made of dots. *)
Lemma splitext_dot stem e :
  Str.contains "/" stem = false → Str.contains "/" e = false →
  Str.contains "." e = false →
  posixpath.splitext (stem +:+ String "." e)
  = if all_dots stem then (stem +:+ String "." e, "") else (stem, String "." e).
Proof.
  intros Hstem He Hdot. unfold posixpath.splitext.
  assert (Str.rfind "/" (stem +:+ String "." e) = -1) as ->.
  { apply rfind_none. rewrite contains_char_app, Hstem, contains_char_cons, He. done. }
  rewrite rfind_app, (rfind_cons_last "." e) by by apply rfind_none.
  change (0 <=? 0) with true. cbv iota. change (-1 + 1) with (Z.of_nat 0).
  assert ((-1 <? Z.of_nat (String.length stem) + 0) = true) as ->
    by (apply Z.ltb_lt; lia).
  replace (Z.to_nat (Z.of_nat (String.length stem) + 0 - Z.of_nat 0))
    with (String.length stem) by lia.
  replace (Z.to_nat (Z.of_nat (String.length stem) + 0))
    with (String.length stem) by lia.
  rewrite non_dot_before_spec by (rewrite length_app; lia).
  change (Str.drop 0 ?s) with s. rewrite take_app.
  destruct (all_dots stem); [done|]. simpl. f_equal.
  etrans; [|apply (drop_app 0 stem (String "." e))]. f_equal. lia.
Qed.

Lemma splitext_no_dot name :
  Str.contains "." name = false → posixpath.splitext name = (name, "").
Proof.
  intros Hdot%rfind_none. unfold posixpath.splitext. rewrite Hdot.
  pose proof (rfind_ge "/" name).
  assert ((Str.rfind "/" name <? -1) = false) as -> by (apply Z.ltb_ge; lia). done.
Qed.

End MorePathFacts.

(** X1. The directory part of a file name is ignored: for a name without
    slash, every function that takes a file name gives on [dir/name] what
    it gives on [name]. *)
Theorem directory_part_ignored
    (nn : nextnanopy) (py : interpreter) (dir name : string) :
  Str.contains "/" name = false →
  separateFileExtension (dir +:+ "/" +:+ name) = separateFileExtension name
  ∧ (∀ args,
       getSweepOutputFolderName (dir +:+ "/" +:+ name) args
       = getSweepOutputFolderName name args)
  ∧ (∀ software args,
       getSweepOutputFolderPath nn (dir +:+ "/" +:+ name) software args
       = getSweepOutputFolderPath nn name software args)
  ∧ (∀ folder,
       get_output_subfolder_path folder (dir +:+ "/" +:+ name)
       = get_output_subfolder_path folder name)
  ∧ (∀ coords w,
       getSweepOutputSubfolderName (dir +:+ "/" +:+ name) coords w
       = getSweepOutputSubfolderName name coords w)
  ∧ (∀ keywords software w,
       getDataFile nn py keywords (dir +:+ "/" +:+ name) software w
       = getDataFile nn py keywords name software w).
Proof.
  intros Hname.
  pose proof (MorePathFacts.separateFileExtension_app dir name Hname) as Hsame.
  unfold getSweepOutputFolderName, getSweepOutputFolderPath,
    get_output_subfolder_path, getSweepOutputSubfolderName, getDataFile.
  by rewrite Hsame.
Qed.

Lemma directory_part_ignored_witness :
  separateFileExtension ("runs/2022" +:+ "/" +:+ "device.in")
  = separateFileExtension "device.in"
  ∧ getSweepOutputFolderName ("runs/2022" +:+ "/" +:+ "device.in") [VStr "Width"]
    = getSweepOutputFolderName "device.in" [VStr "Width"].
Proof.
  destruct (directory_part_ignored (sample_nn []) sample_py "runs/2022" "device.in")
    as (H1 & H2 & _); [reflexivity|].
  split; [exact H1|exact (H2 [VStr "Width"])].
Defined.

(** X2. Joining and separating: a stem without slash that is not made of
    dots, followed by one of the extensions [.in], [.xml], [.negf], is
    separated into that stem and that extension, under any directory. *)
Theorem separateFileExtension_roundtrip (dir stem ext : string) :
  Str.contains "/" stem = false →
  all_dots stem = false →
  ext ∈ [".in"; ".xml"; ".negf"] →
  separateFileExtension (stem +:+ ext) = OK (stem, ext)
  ∧ separateFileExtension (dir +:+ "/" +:+ stem +:+ ext) = OK (stem, ext).
Proof.
  intros Hstem Hdots Hext.
  assert (∃ e, ext = String "." e ∧ Str.contains "/" e = false
               ∧ Str.contains "." e = false) as (e & -> & He & Hdot).
  { repeat (apply elem_of_cons in Hext as [->|Hext]; [by eexists|]).
    by apply elem_of_nil in Hext. }
  assert (separateFileExtension (stem +:+ String "." e) = OK (stem, String "." e)) as H.
  { rewrite PathFacts.separateFileExtension_unfold. simpl.
    rewrite PathFacts.split_tail_id.
    2:{ by rewrite StrFacts.contains_char_app, Hstem, StrFacts.contains_char_cons, He. }
    rewrite MorePathFacts.splitext_dot, Hdots by done. simpl.
    rewrite bool_decide_true; [done|].
    unfold supported_extensions. by apply elem_of_cons; right. }
  split; [done|]. rewrite MorePathFacts.separateFileExtension_app; [done|].
  by rewrite StrFacts.contains_char_app, Hstem, StrFacts.contains_char_cons, He.
Qed.

Lemma separateFileExtension_roundtrip_witness :
  separateFileExtension ("laser.v2" +:+ ".negf") = OK ("laser.v2", ".negf")
  ∧ separateFileExtension ("/home/user" +:+ "/" +:+ "laser.v2" +:+ ".negf")
    = OK ("laser.v2", ".negf").
Proof.
  apply (separateFileExtension_roundtrip "/home/user" "laser.v2" ".negf");
    [reflexivity | reflexivity | repeat constructor].
Defined.

(** X3. The extension check is passed by names that [splitext] leaves
    whole: a name without dot, and a name that starts with dots and has no
    other dot, whatever follows the dots (so [.csv] is accepted where
    [foo.csv] is not). Such a name is returned as the base name, with the
    empty extension. *)
Theorem separateFileExtension_leading_dots (dots e : string) :
  all_dots dots = true →
  Str.contains "/" e = false →
  Str.contains "." e = false →
  separateFileExtension e = OK (e, "")
  ∧ separateFileExtension (dots +:+ String "." e) = OK (dots +:+ String "." e, "").
Proof.
  intros Hdots He Hdot.
  assert (Str.contains "/" dots = false) as Hsep.
  { induction dots as [|c dots IH]; [done|]. simpl in Hdots.
    apply andb_true_iff in Hdots as [->%Ascii.eqb_eq Hdots].
    rewrite StrFacts.contains_char_cons. by rewrite IH. }
  split; rewrite PathFacts.separateFileExtension_unfold; simpl.
  - rewrite PathFacts.split_tail_id, MorePathFacts.splitext_no_dot by done. done.
  - rewrite PathFacts.split_tail_id.
    2:{ by rewrite StrFacts.contains_char_app, Hsep, StrFacts.contains_char_cons, He. }
    by rewrite MorePathFacts.splitext_dot, Hdots.
Qed.

Lemma separateFileExtension_leading_dots_witness :
  separateFileExtension "csv" = OK ("csv", "")
  ∧ separateFileExtension ("." +:+ String "." "csv") = OK ("..csv", "").
Proof.
  apply (separateFileExtension_leading_dots "." "csv"); reflexivity.
Defined.

(** X4. A path that ends in a slash is accepted with the empty base name:
    its sweep folder name is [_sweep] followed by the variables, and its
    output subfolder is the sweep folder itself. *)
Theorem trailing_slash_has_empty_base (dir : string) :
  separateFileExtension (dir +:+ "/") = OK ("", "")
  ∧ (∀ vs : list string,
       getSweepOutputFolderName (dir +:+ "/") (VStr <$> vs)
       = OK ("_sweep" +:+ Str.concat ((fun v => "__" +:+ v) <$> vs)))
  ∧ (∀ folder,
       get_output_subfolder_path folder (dir +:+ "/") = OK (posixpath.join folder "")).
Proof.
  assert (separateFileExtension (dir +:+ "/") = OK ("", "")) as H.
  { transitivity (separateFileExtension ""); [|done].
    by apply (MorePathFacts.separateFileExtension_app dir ""). }
  unfold getSweepOutputFolderName, get_output_subfolder_path. rewrite H.
  split_and!; [done| |done].
  intros vs. simpl. by rewrite append_sweep_vars_strings.
Qed.

(** ** Sweep folders *)

Section MoreNamers.
Import StrFacts PathFacts MorePathFacts.

Lemma join_app a x y :
  x ≠ "" → Str.startswith "/" x = false →
  posixpath.join a (x +:+ y) = posixpath.join a x +:+ y.
Proof.
  intros Hx Hstart. unfold posixpath.join.
  assert (Str.startswith "/" (x +:+ y) = false) as ->.
  { destruct x as [|c x]; [done|]. rewrite sapp_cons. cbn [Str.startswith] in *.
    by destruct (Ascii.eqb "/" c). }
  rewrite Hstart. destruct (_ || _); by rewrite !sapp_assoc.
Qed.

Lemma sweep_name_no_slash b :
  Str.contains "/" b = false →
  b +:+ "_sweep" ≠ "" ∧ Str.startswith "/" (b +:+ "_sweep") = false
  ∧ Str.contains "/" (b +:+ "_sweep") = false.
Proof.
  intros Hb. split_and!.
  - by destruct b.
  - destruct b as [|c b]; [done|]. rewrite sapp_cons. cbn [Str.startswith].
    rewrite contains_char_cons in Hb. by apply orb_false_iff in Hb as [-> _].
  - by rewrite contains_char_app, Hb.
Qed.

Lemma starts_without_slash b :
  Str.contains "/" b = false → Str.startswith "/" b = false.
Proof.
  intros Hb. destruct b as [|c b]; [done|]. cbn [Str.startswith].
  rewrite contains_char_cons in Hb. by apply orb_false_iff in Hb as [-> _].
Qed.

Lemma suffixes_no_slash (vs : list string) :
  Forall (fun v => Str.contains "/" v = false) vs →
  Str.contains "/" (Str.concat ((fun v => "__" +:+ v) <$> vs)) = false.
Proof.
  induction 1 as [|v vs Hv _ IH]; [done|]. rewrite fmap_cons.
  change (Str.concat (?x :: ?l)) with (x +:+ Str.concat l).
  by rewrite !contains_char_app, Hv, IH.
Qed.

End MoreNamers.

(** X5. For an accepted file name, a configured output directory and at
    least one sweep variable, all strings, [getSweepOutputFolderPath]
    returns the output directory joined with the name that
    [getSweepOutputFolderName] returns; when no variable holds a slash,
    that name is the last component of the path. The first argument that
    is not a string ends the call: with [TypeError] when the f-string of
    the message can show it, otherwise with the [ValueError] that showing
    it raises. *)
Theorem getSweepOutputFolderPath_spec
    (nn : nextnanopy) (filename software b ext outputdirectory : string)
    (vs : list string) :
  separateFileExtension filename = OK (b, ext) →
  config_get nn software "outputdirectory" = OK outputdirectory →
  vs ≠ [] →
  (∃ name,
     getSweepOutputFolderName filename (VStr <$> vs) = OK name
     ∧ getSweepOutputFolderPath nn filename software (VStr <$> vs)
       = OK (posixpath.join outputdirectory name)
     ∧ (Forall (fun v => Str.contains "/" v = false) vs →
        posixpath.split_tail (posixpath.join outputdirectory name) = name))
  ∧ (∀ (pre : list string) (v : pyval) (rest : list pyval),
       is_str v = false →
       (∀ shown, py_str v = OK shown →
          getSweepOutputFolderPath nn filename software ((VStr <$> pre) ++ v :: rest)
          = Err (Raise TypeError ("Argument " +:+ shown +:+ " must be a string!")))
       ∧ (∀ e, py_str v = Err e →
            getSweepOutputFolderPath nn filename software ((VStr <$> pre) ++ v :: rest)
            = Err e
            ∧ cls e = ValueError)).
Proof.
  intros Hsep Hcfg Hvs.
  pose proof (MorePathFacts.separateFileExtension_base _ _ _ Hsep) as Hb.
  destruct (sweep_name_no_slash b Hb) as (Hne & Hstart & Hslash).
  unfold getSweepOutputFolderName, getSweepOutputFolderPath.
  rewrite Hsep. cbv beta iota delta [rbind]. rewrite Hcfg. split.
  - exists ((b +:+ "_sweep") +:+ Str.concat ((fun v => "__" +:+ v) <$> vs)).
    rewrite !append_sweep_vars_strings. split_and!; [done| |].
    + rewrite bool_decide_false;
        [by rewrite (join_app outputdirectory (b +:+ "_sweep"))|].
      rewrite length_fmap. by destruct vs.
    + intros Hno. apply MorePathFacts.split_tail_join.
      by rewrite StrFacts.contains_char_app, Hslash, suffixes_no_slash.
  - intros pre v rest Hv. rewrite bool_decide_false.
    2:{ rewrite length_app. simpl. lia. }
    rewrite append_sweep_vars_first_non_str by done. split.
    + by intros shown ->.
    + intros e He. rewrite He. split; [done|by eapply py_str_error_class].
Qed.

Lemma getSweepOutputFolderPath_spec_witness :
  (∃ name,
     getSweepOutputFolderName "runs/device.in" (VStr <$> ["Width"; "Bias"]) = OK name
     ∧ getSweepOutputFolderPath (sample_nn []) "runs/device.in" "nextnano++"
         (VStr <$> ["Width"; "Bias"])
       = OK (posixpath.join "/output/nextnano++" name)
     ∧ (Forall (fun v => Str.contains "/" v = false) ["Width"; "Bias"] →
        posixpath.split_tail (posixpath.join "/output/nextnano++" name) = name))
  ∧ getSweepOutputFolderPath (sample_nn []) "runs/device.in" "nextnano++"
      ((VStr <$> ["Width"]) ++ VNone :: [])
    = Err (Raise TypeError "Argument None must be a string!")
  ∧ getSweepOutputFolderPath (sample_nn []) "runs/device.in" "nextnano++"
      ((VStr <$> ["Width"]) ++ VInt str_digits_bound :: [])
    = Err str_digits_error.
Proof.
  destruct (getSweepOutputFolderPath_spec (sample_nn []) "runs/device.in"
              "nextnano++" "device" ".in" "/output/nextnano++" ["Width"; "Bias"])
    as [Hpath Htype]; [reflexivity | reflexivity | discriminate |].
  split_and!; [exact Hpath| |].
  - apply (proj1 (Htype ["Width"] VNone [] eq_refl) "None"). reflexivity.
  - apply (proj2 (Htype ["Width"] (VInt str_digits_bound) [] eq_refl) str_digits_error).
    by vm_compute.
Defined.

(** X6. For an accepted input file name with base name [b], the output
    subfolder path is the sweep folder path followed by [b]: directly when
    the folder path is empty or ends in a slash, and with one slash
    between them otherwise. Its last component is [b]. *)
Theorem get_output_subfolder_path_spec (folder input_file_name b ext : string) :
  separateFileExtension input_file_name = OK (b, ext) →
  ∃ path,
    get_output_subfolder_path folder input_file_name = OK path
    ∧ (folder = "" ∨ (∃ d, folder = d +:+ "/") → path = folder +:+ b)
    ∧ (folder ≠ "" → (∀ d, folder ≠ d +:+ "/") → path = folder +:+ "/" +:+ b)
    ∧ posixpath.split_tail path = b.
Proof.
  intros Hsep.
  pose proof (MorePathFacts.separateFileExtension_base _ _ _ Hsep) as Hb.
  unfold get_output_subfolder_path. rewrite Hsep. cbv beta iota delta [rbind].
  eexists. split_and!; [done| | |by apply MorePathFacts.split_tail_join].
  - intros Hfolder. unfold posixpath.join.
    rewrite (starts_without_slash b Hb).
    destruct Hfolder as [->|[d ->]]; [done|].
    by rewrite MorePathFacts.last_char_app, orb_true_r.
  - intros Hne Hlast. unfold posixpath.join.
    rewrite (starts_without_slash b Hb).
    apply String.eqb_neq in Hne as ->.
    destruct (String.eqb_spec
                (Str.at_index folder (Z.of_nat (String.length folder) - 1)) "/")
      as [Hend|Hend]; [|done].
    apply MorePathFacts.last_char in Hend as [d ->]. by destruct (Hlast d).
Qed.

Lemma get_output_subfolder_path_spec_witness :
  (∃ path,
     get_output_subfolder_path "/output/device_sweep__Width" "runs/device__Width_2_.in"
     = OK path
     ∧ ("/output/device_sweep__Width" = ""
        ∨ (∃ d, "/output/device_sweep__Width" = d +:+ "/") →
        path = "/output/device_sweep__Width" +:+ "device__Width_2_")
     ∧ ("/output/device_sweep__Width" ≠ "" →
        (∀ d, "/output/device_sweep__Width" ≠ d +:+ "/") →
        path = "/output/device_sweep__Width" +:+ "/" +:+ "device__Width_2_")
     ∧ posixpath.split_tail path = "device__Width_2_")
  ∧ get_output_subfolder_path "" "device.in" = OK "device"
  ∧ get_output_subfolder_path "out/" "device.in" = OK "out/device"
  ∧ get_output_subfolder_path "out" "device.in" = OK "out/device".
Proof.
  split; [|by vm_compute].
  apply (get_output_subfolder_path_spec "/output/device_sweep__Width"
           "runs/device__Width_2_.in" "device__Width_2_" ".in").
  reflexivity.
Defined.

(** X7. The sweep folder name does not determine the sweep variables: a
    variable that holds the separator [__] gives the name of the two
    variables around it, with both namers. *)
Theorem sweep_folder_name_collision
    (nn : nextnanopy) (filename software v1 v2 : string) (rest : list pyval) :
  getSweepOutputFolderName filename (VStr (v1 +:+ "__" +:+ v2) :: rest)
  = getSweepOutputFolderName filename (VStr v1 :: VStr v2 :: rest)
  ∧ getSweepOutputFolderPath nn filename software (VStr (v1 +:+ "__" +:+ v2) :: rest)
    = getSweepOutputFolderPath nn filename software (VStr v1 :: VStr v2 :: rest).
Proof.
  unfold getSweepOutputFolderName, getSweepOutputFolderPath.
  destruct (separateFileExtension filename) as [[b ext]|e]; [|done]. simpl.
  split.
  - by rewrite !StrFacts.sapp_assoc.
  - destruct (config_get nn software "outputdirectory"); [|done]. simpl.
    by rewrite !StrFacts.sapp_assoc.
Qed.

(** X8. The sweep subfolder name does not determine the coordinates: a
    string value that holds [_key_value] gives the name of two pairs, and
    a value that [str] converts gives the name of its string form. *)
Theorem sweep_subfolder_name_collision
    (filename k1 v1 k2 v2 : string) (v : pyval)
    (rest : list (pyval * pyval)) (w : world) :
  getSweepOutputSubfolderName filename
    ((VStr k1, VStr (v1 +:+ "_" +:+ k2 +:+ "_" +:+ v2)) :: rest) w
  = getSweepOutputSubfolderName filename
      ((VStr k1, VStr v1) :: (VStr k2, VStr v2) :: rest) w
  ∧ (∀ shown, py_str v = OK shown →
       getSweepOutputSubfolderName filename ((VStr k1, v) :: rest) w
       = getSweepOutputSubfolderName filename ((VStr k1, VStr shown) :: rest) w).
Proof.
  unfold getSweepOutputSubfolderName, bind, lift.
  destruct (separateFileExtension filename) as [[b ext]|e]; [|done]. split.
  - cbn [append_coordinates py_str]. f_equal. by rewrite !StrFacts.sapp_assoc.
  - intros shown Hshown. cbn [append_coordinates]. by rewrite Hshown.
Qed.

Lemma sweep_subfolder_name_collision_witness :
  getSweepOutputSubfolderName "device.in"
    [(VStr "Width", VFloat "2.5"); (VStr "N", VInt 3)] (World [] [])
  = getSweepOutputSubfolderName "device.in"
      [(VStr "Width", VStr "2.5"); (VStr "N", VInt 3)] (World [] []).
Proof.
  apply (proj2 (sweep_subfolder_name_collision "device.in" "Width" "" "" ""
                  (VFloat "2.5") [(VStr "N", VInt 3)] (World [] []))
           "2.5").
  reflexivity.
Defined.

(** X9. Which error comes first: with an unsupported extension and no
    configured output directory, the namers raise the error of the
    extension, and [getDataFile] raises the error of the configuration,
    without writing anything. *)
Theorem error_precedence
    (nn : nextnanopy) (py : interpreter) (filename software : string)
    (args : list pyval) (keywords : keywords_arg) (w : world) (e1 e2 : exn) :
  separateFileExtension filename = Err e1 →
  config_get nn software "outputdirectory" = Err e2 →
  getSweepOutputFolderName filename args = Err e1
  ∧ getSweepOutputFolderPath nn filename software args = Err e1
  ∧ getDataFile nn py keywords filename software w = (Err e2, w).
Proof.
  intros Hsep Hcfg.
  unfold getSweepOutputFolderName, getSweepOutputFolderPath, getDataFile, bind, lift.
  by rewrite Hsep, Hcfg.
Qed.

Lemma error_precedence_witness :
  getSweepOutputFolderName "device.csv" [] = Err
    (Raise RuntimeError "File extension .csv is not supported by nextnano.")
  ∧ getSweepOutputFolderPath unconfigured_nn "device.csv" "nextnano++" [] = Err
      (Raise RuntimeError "File extension .csv is not supported by nextnano.")
  ∧ getDataFile unconfigured_nn sample_py (KwVal (VStr "energy")) "device.csv"
      "nextnano++" (World [] [])
    = (Err (Raise KeyError "'nextnano++'"), World [] []).
Proof.
  apply (error_precedence unconfigured_nn sample_py "device.csv" "nextnano++");
    reflexivity.
Defined.

(** ** Engine detection, continued *)

Section MoreDetection.

Lemma early_exit_engine_in_table line : early_exit_engine line ∈ engine_table.
Proof.
  unfold early_exit_engine, engine_table.
  repeat case_match; repeat constructor.
Qed.

Lemma overwrite_engine_in_table line : overwrite_engine line ∈ engine_table.
Proof.
  unfold overwrite_engine, engine_table.
  repeat case_match; repeat constructor.
Qed.

Lemma scan_line_marked line vars :
  marked line = true → assigned_from_table (scan_line line vars).1.
Proof.
  unfold marked. intros Hm.
  destruct (early_exit_marker line) eqn:He.
  - rewrite scan_line_early by done. eexists. split; [apply early_exit_engine_in_table|done].
  - rewrite scan_line_overwrite by done.
    eexists. split; [apply overwrite_engine_in_table|done].
Qed.

Lemma scan_line_unmarked line vars :
  marked line = false → scan_line line vars = (vars, false).
Proof.
  unfold marked. intros [He Ho]%orb_false_iff. by apply scan_line_none.
Qed.

Lemma scan_assigned file vars :
  assigned_from_table vars → assigned_from_table (scan file vars).
Proof.
  revert vars. induction file as [|line file IH]; intros vars Hvars; [done|].
  simpl. destruct (marked line) eqn:Hm.
  - pose proof (scan_line_marked line vars Hm) as Hline.
    destruct (scan_line line vars) as [vars' [|]]; [done|by apply IH].
  - rewrite scan_line_unmarked by done. by apply IH.
Qed.

Lemma scan_marked file vars :
  Exists (fun line => marked line = true) file →
  assigned_from_table (scan file vars).
Proof.
  intros Hex. revert vars.
  induction file as [|line file IH]; intros vars; [by apply Exists_nil in Hex|].
  simpl. destruct (marked line) eqn:Hm.
  - pose proof (scan_line_marked line vars Hm) as Hline.
    destruct (scan_line line vars) as [vars' [|]]; [done|by apply scan_assigned].
  - rewrite scan_line_unmarked by done. apply IH.
    apply Exists_cons in Hex as [Hex|Hex]; [congruence|done].
Qed.

Lemma scan_filter_marked file vars :
  scan (filter (fun line => marked line = true) file) vars = scan file vars.
Proof.
  revert vars. induction file as [|line file IH]; intros vars; [done|].
  destruct (marked line) eqn:Hm.
  - rewrite filter_cons_True by done. simpl.
    destruct (scan_line line vars) as [vars' [|]]; [done|apply IH].
  - rewrite filter_cons_False by congruence. simpl.
    rewrite scan_line_unmarked by done. apply IH.
Qed.

Lemma engine_table_named engine : engine ∈ engine_table → engine.1 ≠ "".
Proof.
  unfold engine_table. intros H.
  repeat (apply elem_of_cons in H as [->|H]; [done|]). by apply elem_of_nil in H.
Qed.

Lemma engine_table_extension engine :
  engine ∈ engine_table → engine.2 ∈ [".in"; ".xml"; ".negf"].
Proof.
  unfold engine_table. intros H.
  repeat (apply elem_of_cons in H as [->|H]; [repeat constructor|]).
  by apply elem_of_nil in H.
Qed.

End MoreDetection.

(** X10. Whenever [detect_software_new] returns, the pair returned is one
    of the six that its branches assign, its extension is one of [.in],
    [.xml], [.negf], one line reporting the engine has been written and
    nothing has been read from the terminal. *)
Theorem detect_software_new_result
    (fs : filesystem) (inputfile : InputFile) (w w' : world)
    (detected : string * string) :
  detect_software_new fs inputfile w = (OK detected, w') →
  detected ∈ engine_table
  ∧ detected.2 ∈ [".in"; ".xml"; ".negf"]
  ∧ w' = reported detected.1 w.
Proof.
  destruct (fs !! fullpath inputfile) as [content|] eqn:Hfile.
  - destruct (decide (Exists (fun line => marked line = true) (File.lines content)))
      as [Hex|Hno].
    + destruct (scan_marked _ (Locals None None) Hex) as ([sw ext] & Hin & Hscan).
      rewrite (detect_assigned fs inputfile content Hfile sw ext w Hscan
                 (engine_table_named _ Hin)).
      intros [= <- <-]. split_and!; [done|by apply engine_table_extension|done].
    + apply not_Exists_Forall in Hno; [|apply _].
      destruct (detect_unassigned fs inputfile content Hfile w) as (e & -> & _); [|done].
      apply scan_unmarked. eapply Forall_impl; [exact Hno|]. simpl.
      intros line Hline. unfold marked in Hline.
      by destruct (early_exit_marker line), (overwrite_marker line).
  - unfold detect_software_new, File.open_lines, bind. by rewrite Hfile.
Qed.

Lemma detect_software_new_result_witness :
  ("nextnano.NEGF++", ".negf") ∈ engine_table
  ∧ ".negf" ∈ [".in"; ".xml"; ".negf"]
  ∧ World ["typed"] [(Str.nl +:+ "Software detected:  nextnano.NEGF++") +:+ Str.nl]
    = reported "nextnano.NEGF++" (World ["typed"] []).
Proof.
  apply (detect_software_new_result sample_fs {| fullpath := "msb.negf" |}
           (World ["typed"] [])
           (World ["typed"] [(Str.nl +:+ "Software detected:  nextnano.NEGF++") +:+ Str.nl])
           ("nextnano.NEGF++", ".negf")).
  reflexivity.
Defined.

(** X11. On an existing file, [detect_software_new] returns exactly when
    some line holds a marker. *)
Theorem detect_software_new_succeeds_iff_marked
    (fs : filesystem) (inputfile : InputFile) (content : string) (w : world) :
  fs !! fullpath inputfile = Some content →
  (∃ detected w', detect_software_new fs inputfile w = (OK detected, w'))
  ↔ Exists (fun line => marked line = true) (File.lines content).
Proof.
  intros Hfile. split.
  - intros (detected & w' & Hrun).
    destruct (decide (Exists (fun line => marked line = true) (File.lines content)))
      as [Hex|Hno]; [done|].
    apply not_Exists_Forall in Hno; [|apply _].
    destruct (detect_unassigned fs inputfile content Hfile w) as (e & He & _).
    + apply scan_unmarked. eapply Forall_impl; [exact Hno|]. simpl.
      intros line Hline. unfold marked in Hline.
      by destruct (early_exit_marker line), (overwrite_marker line).
    + congruence.
  - intros Hex.
    destruct (scan_marked _ (Locals None None) Hex) as ([sw ext] & Hin & Hscan).
    eexists _, _.
    exact (detect_assigned fs inputfile content Hfile sw ext w Hscan
             (engine_table_named _ Hin)).
Qed.

Lemma detect_software_new_succeeds_iff_marked_witness :
  (∃ detected w',
     detect_software_new sample_fs {| fullpath := "qcl.in" |} (World [] [])
     = (OK detected, w'))
  ↔ Exists (fun line => marked line = true)
      (File.lines (("# quantum cascade laser" +:+ Str.nl) +:+ ("run{ }" +:+ Str.nl)
                   +:+ "simulation-flow-control")).
Proof.
  apply (detect_software_new_succeeds_iff_marked sample_fs {| fullpath := "qcl.in" |}).
  reflexivity.
Defined.

(** X12. The result of [detect_software_new] depends on the lines with a
    marker only: two existing files whose marked lines are the same, in
    the same order, give the same result. *)
Theorem detect_software_new_marked_lines_only
    (fs1 fs2 : filesystem) (file1 file2 : InputFile) (content1 content2 : string)
    (w : world) :
  fs1 !! fullpath file1 = Some content1 →
  fs2 !! fullpath file2 = Some content2 →
  filter (fun line => marked line = true) (File.lines content1)
  = filter (fun line => marked line = true) (File.lines content2) →
  detect_software_new fs1 file1 w = detect_software_new fs2 file2 w.
Proof.
  intros H1 H2 Hsame.
  unfold detect_software_new, File.open_lines. rewrite H1, H2.
  by rewrite <- (scan_filter_marked (File.lines content1)),
             <- (scan_filter_marked (File.lines content2)), Hsame.
Qed.

Lemma detect_software_new_marked_lines_only_witness :
  detect_software_new sample_fs {| fullpath := "qcl.in" |} (World [] [])
  = detect_software_new
      {[ "bare.in" := ("run{ }" +:+ Str.nl) +:+ "simulation-flow-control" ]}
      {| fullpath := "bare.in" |} (World [] []).
Proof.
  apply (detect_software_new_marked_lines_only sample_fs
           {[ "bare.in" := ("run{ }" +:+ Str.nl) +:+ "simulation-flow-control" ]}
           {| fullpath := "qcl.in" |} {| fullpath := "bare.in" |}
           (("# quantum cascade laser" +:+ Str.nl) +:+ ("run{ }" +:+ Str.nl)
            +:+ "simulation-flow-control")
           (("run{ }" +:+ Str.nl) +:+ "simulation-flow-control"));
    reflexivity.
Defined.

(** X13. [detect_software_new] never raises [NextnanoInputFileError]:
    whenever [software] is bound it holds a non-empty engine name, so the
    test [not software] cannot succeed. A call that fails has written
    nothing. *)
Theorem detect_software_new_input_file_error_unreachable
    (fs : filesystem) (inputfile : InputFile) (w w' : world) (e : exn) :
  detect_software_new fs inputfile w = (Err e, w') →
  cls e ≠ NextnanoInputFileError ∧ w' = w.
Proof.
  intros Hrun. split; [by eapply detect_software_new_never_input_file_error|].
  revert Hrun.
  destruct (fs !! fullpath inputfile) as [content|] eqn:Hfile.
  - destruct (decide (Exists (fun line => marked line = true) (File.lines content)))
      as [Hex|Hno].
    + destruct (scan_marked _ (Locals None None) Hex) as ([sw ext] & Hin & Hscan).
      by rewrite (detect_assigned fs inputfile content Hfile sw ext w Hscan
                    (engine_table_named _ Hin)).
    + apply not_Exists_Forall in Hno; [|apply _].
      destruct (detect_unassigned fs inputfile content Hfile w) as (e' & -> & Hcls).
      * apply scan_unmarked. eapply Forall_impl; [exact Hno|]. simpl.
        intros line Hline. unfold marked in Hline.
        by destruct (early_exit_marker line), (overwrite_marker line).
      * by intros [= <- <-].
  - unfold detect_software_new, File.open_lines, bind. rewrite Hfile. simpl.
    by intros [= <- <-].
Qed.

Lemma detect_software_new_input_file_error_unreachable_witness :
  UnboundLocalError ≠ NextnanoInputFileError ∧ World [] [] = World [] [].
Proof.
  apply (detect_software_new_input_file_error_unreachable sample_fs
           {| fullpath := "notes.in" |} (World [] []) (World [] [])
           (Raise UnboundLocalError
              "cannot access local variable 'software' where it is not associated with a value")).
  reflexivity.
Defined.

(** ** The output file resolver, continued *)

Section MoreResolver.

Variable nn : nextnanopy.
Variable py : interpreter.

Lemma open_datafile_OK file software data :
  open_datafile nn file software = OK data → DataFile nn file software = OK data.
Proof.
  unfold open_datafile. destruct (DataFile nn file software); [done|].
  by case_decide.
Qed.

Lemma py_index_elem {A} (l : list A) i x : py_index l i = OK x → x ∈ l.
Proof.
  unfold py_index. set (j := if i <? 0 then _ else i).
  cbv zeta. destruct (j <? 0); [done|].
  destruct (l !! Z.to_nat j) as [y|] eqn:Hy; [|done].
  intros [= <-]. by eapply list_elem_of_lookup_2.
Qed.

Lemma py_index_in_range {A} (l : list A) i :
  0 ≤ i < Z.of_nat (length l) → ∃ x, py_index l i = OK x.
Proof.
  intros Hi. destruct (lookup_lt_is_Some_2 l (Z.to_nat i)) as [x Hx]; [lia|].
  exists x. apply py_index_lookup; [lia|done].
Qed.

Lemma finds_succeed (found_of : string → list string) folder_path keywords :
  (∀ keyword, keyword ∈ keywords →
     DataFolder_find nn folder_path keyword = OK (found_of keyword)) →
  Forall2 (fun keyword found => DataFolder_find nn folder_path keyword = OK found)
    keywords (found_of <$> keywords).
Proof.
  induction keywords as [|k ks IH]; intros H; simpl; constructor.
  - apply H. by left.
  - apply IH. intros k' Hk'. apply H. by right.
Qed.

(** The files left by a list of keywords: those found for each of them. *)
Lemma search_list_of (found_of : string → list string) folder_path keywords :
  keywords ≠ [] →
  (∀ keyword, keyword ∈ keywords →
     DataFolder_find nn folder_path keyword = OK (found_of keyword)) →
  ∃ files, search nn py (KwList keywords) folder_path = OK files
           ∧ NoDup files
           ∧ ∀ file, file ∈ files ↔ ∀ keyword, keyword ∈ keywords → file ∈ found_of keyword.
Proof.
  intros Hne Hfind.
  destruct (search_list nn py keywords (found_of <$> keywords) folder_path Hne
              (finds_succeed found_of folder_path keywords Hfind))
    as (files & Hsearch & Hnodup & Hfiles).
  exists files. split_and!; [done..|].
  intros file. rewrite Hfiles, Forall_fmap, Forall_forall. done.
Qed.

Lemma results_exist folder_path keywords :
  never_fails nn →
  ∃ results,
    Forall2 (fun keyword found => DataFolder_find nn folder_path keyword = OK found)
      keywords results.
Proof.
  intros [Hfind _]. induction keywords as [|k ks [results IH]].
  - exists []. constructor.
  - destruct (Hfind folder_path k) as [found Hk]. exists (found :: results).
    by constructor.
Qed.

(** With collaborators that never raise, the resolver fails after a
    successful search only for want of a file or at the chooser. *)
Lemma failure_after_search keywords folder_path software w shown files e w' :
  never_fails nn →
  show_keywords keywords = OK shown →
  search nn py keywords folder_path = OK files →
  getDataFile_in_folder nn py keywords folder_path software w = (Err e, w') →
  (cls e = FileNotFoundError ∧ files = [])
  ∨ ((cls e = RuntimeError ∨ cls e = EOFError) ∧ (2 ≤ length files)%nat).
Proof.
  intros [_ Hload] Hshown Hsearch.
  rewrite (getDataFile_in_folder_unfold nn py _ _ _ _ shown Hshown), Hsearch.
  cbv zeta. destruct files as [|file [|file' files]].
  - intros [= <- _]. by left.
  - unfold open_datafile. destruct (Hload file software) as [data ->]. done.
  - destruct (choose _ _ _) as [[choice|e1] w1] eqn:Hchoose.
    + destruct (py_index_in_range (file :: file' :: files) choice) as [chosen ->].
      { by eapply choose_range. }
      unfold open_datafile. destruct (Hload chosen software) as [data ->]. done.
    + intros [= <- _]. right. split; [by eapply choose_error|simpl; lia].
Qed.

End MoreResolver.

(** X14. Whenever [getDataFile_in_folder] returns data, the search had
    succeeded and the data are those of one of the files it found: no
    other file is ever opened, whatever is typed. *)
Theorem resolver_opens_found_file
    (nn : nextnanopy) (py : interpreter) (keywords : keywords_arg)
    (folder_path software : string) (w w' : world) (data : datafile nn) :
  getDataFile_in_folder nn py keywords folder_path software w = (OK data, w') →
  ∃ files file,
    search nn py keywords folder_path = OK files
    ∧ file ∈ files
    ∧ DataFile nn file software = OK data.
Proof.
  destruct (show_keywords keywords) as [shown|e0] eqn:Hshown.
  2:{ by destruct (getDataFile_in_folder_not_shown nn py _ folder_path software w _
                     Hshown) as (-> & _). }
  rewrite (getDataFile_in_folder_unfold nn py _ _ _ _ shown Hshown). cbv zeta.
  destruct (search nn py keywords folder_path) as [files|e]; [|done].
  destruct files as [|file [|file' files]]; [done| |].
  - intros [= Hopen _]. exists [file], file.
    split_and!; [done|by left|by apply open_datafile_OK].
  - destruct (choose _ _ _) as [[choice|e] w1]; [|done].
    destruct (py_index _ choice) as [chosen|e] eqn:Hindex; [|done].
    intros [= Hopen _]. exists (file :: file' :: files), chosen.
    split_and!; [done|by eapply py_index_elem|by apply open_datafile_OK].
Qed.

Lemma resolver_opens_found_file_witness :
  ∃ files file,
    search (sample_nn energy_folder) sample_py (KwVal (VStr "energy")) "out" = OK files
    ∧ file ∈ files
    ∧ DataFile (sample_nn energy_folder) file "nextnano++"
      = OK ("energy_hole.dat", "nextnano++").
Proof.
  apply (resolver_opens_found_file (sample_nn energy_folder) sample_py
           (KwVal (VStr "energy")) "out" "nextnano++"
           (World ["7"; "1"] [])
           (World []
              (announced "energy" ["energy_electron.dat"; "energy_hole.dat"]
               ++ retries ["7"] ++ [prompt] ++ found sample_py "energy_hole.dat"))).
  reflexivity.
Defined.

(** X15. With exactly one file found, nothing is asked and nothing is
    read: the file goes to the loader after the line that announces the
    search (and the line that shows the file, when [__debug__] holds). A
    [NotImplementedError] of the loader is raised anew with the resolver's
    message naming the file; any other error of the loader is passed on. *)
Theorem resolver_single_match
    (nn : nextnanopy) (py : interpreter) (keywords : keywords_arg)
    (folder_path software : string) (w : world) (shown file : string) :
  show_keywords keywords = OK shown →
  search nn py keywords folder_path = OK [file] →
  (∀ data, DataFile nn file software = OK data →
     getDataFile_in_folder nn py keywords folder_path software w
     = (OK data, World (stdin w) (stdout w ++ [searching shown] ++ found py file)))
  ∧ (∀ e, DataFile nn file software = Err e → cls e = NotImplementedError →
       getDataFile_in_folder nn py keywords folder_path software w
       = (Err (Raise NotImplementedError
                 ("Nextnanopy does not support datafile for " +:+ file)),
          World (stdin w) (stdout w ++ [searching shown] ++ found py file)))
  ∧ (∀ e, DataFile nn file software = Err e → cls e ≠ NotImplementedError →
       getDataFile_in_folder nn py keywords folder_path software w
       = (Err e, World (stdin w) (stdout w ++ [searching shown] ++ found py file))).
Proof.
  intros Hshown Hsearch.
  rewrite (getDataFile_in_folder_unfold nn py _ _ _ _ shown Hshown), Hsearch.
  cbv zeta. cbn [stdout]. rewrite <- app_assoc. unfold open_datafile.
  split_and!.
  - by intros data ->.
  - intros e -> Hcls. by rewrite decide_True.
  - intros e -> Hcls. by rewrite decide_False.
Qed.

Lemma resolver_single_match_witness :
  getDataFile_in_folder (unsupporting_nn energy_folder) sample_py
    (KwList ["energy"; "hole"]) "out" "nextnano++" (World ["typed"] [])
  = (Err (Raise NotImplementedError
            ("Nextnanopy does not support datafile for " +:+ "energy_hole.dat")),
     World ["typed"]
       ([] ++ [searching "['energy', 'hole']"] ++ found sample_py "energy_hole.dat")).
Proof.
  apply (proj1 (proj2 (resolver_single_match (unsupporting_nn energy_folder) sample_py
                         (KwList ["energy"; "hole"]) "out" "nextnano++"
                         (World ["typed"] []) "['energy', 'hole']" "energy_hole.dat"
                         eq_refl eq_refl))
           (Raise NotImplementedError ""));
    reflexivity.
Defined.

(** X16. The keywords of a list count as a set: when every sub-search
    succeeds, the files left for a list of keywords are among those left
    for any non-empty list of some of these keywords, and two lists with
    the same keywords, in any order and with any repetition, leave the
    same files up to their order. *)
Theorem search_keyword_set
    (nn : nextnanopy) (py : interpreter) (folder_path : string)
    (keywords keywords' : list string) (found_of : string → list string) :
  keywords ≠ [] →
  keywords ⊆ keywords' →
  (∀ keyword, keyword ∈ keywords' →
     DataFolder_find nn folder_path keyword = OK (found_of keyword)) →
  ∃ files files',
    search nn py (KwList keywords) folder_path = OK files
    ∧ search nn py (KwList keywords') folder_path = OK files'
    ∧ files' ⊆ files
    ∧ (keywords' ⊆ keywords → files ≡ₚ files').
Proof.
  intros Hne Hsub Hfind.
  destruct (search_list_of nn py found_of folder_path keywords Hne)
    as (files & Hsearch & Hnodup & Hfiles).
  { intros k Hk. apply Hfind. by apply Hsub. }
  destruct (search_list_of nn py found_of folder_path keywords')
    as (files' & Hsearch' & Hnodup' & Hfiles'); [|done|].
  { destruct keywords as [|k ks]; [done|]. intros ->.
    assert (k ∈ []) as Hk by (apply Hsub; by left). by apply elem_of_nil in Hk. }
  exists files, files'. split_and!; [done..| |].
  - intros file Hfile. apply Hfiles. intros k Hk.
    by apply (proj1 (Hfiles' file) Hfile), Hsub.
  - intros Hsup. apply NoDup_Permutation; [done..|].
    intros file. rewrite Hfiles, Hfiles'. split; intros H k Hk; apply H; auto.
Qed.

Lemma search_keyword_set_witness :
  ∃ files files',
    search (sample_nn energy_folder) sample_py (KwList ["dat"; "energy"]) "out"
    = OK files
    ∧ search (sample_nn energy_folder) sample_py
        (KwList ["energy"; "dat"; "energy"]) "out" = OK files'
    ∧ files' ⊆ files
    ∧ (["energy"; "dat"; "energy"] ⊆ ["dat"; "energy"] → files ≡ₚ files').
Proof.
  apply (search_keyword_set (sample_nn energy_folder) sample_py "out"
           ["dat"; "energy"] ["energy"; "dat"; "energy"]
           (fun keyword =>
              filter (fun file => Str.contains keyword (posixpath.split_tail file) = true)
                energy_folder)).
  - discriminate.
  - intros k Hk. apply elem_of_cons in Hk as [->|Hk]; [by right; left|].
    apply elem_of_cons in Hk as [->|Hk]; [by left|]. by apply elem_of_nil in Hk.
  - reflexivity.
Defined.

(** X17. With several candidates, when every line typed is rejected and
    the input ends, the call raises [EOFError] after one more prompt; no
    file is opened. *)
Theorem chooser_exhausted
    (nn : nextnanopy) (py : interpreter) (keywords : keywords_arg)
    (folder_path software : string) (w : world) (shown : string) (files : list string) :
  show_keywords keywords = OK shown →
  search nn py keywords folder_path = OK files →
  (2 ≤ length files)%nat →
  Forall (rejected (Z.of_nat (length files))) (stdin w) →
  getDataFile_in_folder nn py keywords folder_path software w
  = (Err (Raise EOFError "EOF when reading a line"),
     World [] (stdout w ++ announced shown files ++ retries (stdin w) ++ [prompt])).
Proof.
  intros Hshown Hsearch Hlen Hbad.
  rewrite (getDataFile_in_folder_unfold nn py _ _ _ _ shown Hshown), Hsearch.
  cbv zeta. destruct files as [|f [|g files]]; [simpl in Hlen; lia..|].
  rewrite <- (app_nil_r (stdin w)) at 1.
  rewrite (choose_rejects _ _ _ _ Hbad). simpl. by rewrite <- !app_assoc.
Qed.

Lemma chooser_exhausted_witness :
  getDataFile_in_folder (sample_nn energy_folder) sample_py (KwVal (VStr "energy"))
    "out" "nextnano++" (World ["2"; ""; repeated "9" 4301] [])
  = (Err (Raise EOFError "EOF when reading a line"),
     World []
       ([] ++ announced "energy" ["energy_electron.dat"; "energy_hole.dat"]
        ++ retries ["2"; ""; repeated "9" 4301] ++ [prompt]))
  ∧ retries ["2"; ""; repeated "9" 4301]
    = [prompt; "Index out of bounds. Type 'q' to quit" +:+ Str.nl;
       prompt; "Invalid input. (Type 'q' to quit)" +:+ Str.nl;
       prompt; "Invalid input. (Type 'q' to quit)" +:+ Str.nl].
Proof.
  split; [|by vm_compute].
  apply (chooser_exhausted (sample_nn energy_folder) sample_py (KwVal (VStr "energy"))
           "out" "nextnano++" (World ["2"; ""; repeated "9" 4301] []) "energy"
           ["energy_electron.dat"; "energy_hole.dat"]);
    [reflexivity | reflexivity | simpl; lia |].
  constructor; [split; [discriminate|simpl; lia]|].
  constructor; [split; [discriminate|exact I]|].
  constructor; [split; vm_compute; [discriminate|exact I]|]. constructor.
Defined.

(** X18. The failures of the resolver itself: when the search and the
    loader of the package never raise, a failing call raises [ValueError]
    for a keyword that the first f-string cannot show (an [int] beyond the
    limit on digits, nothing being written), [TypeError] for keywords that
    are neither a [str] nor a list, [IndexError] for the empty list,
    [FileNotFoundError] when no file is found, and [RuntimeError] or
    [EOFError] at the chooser over several files; there is no other
    failure. *)
Theorem resolver_failure_kinds
    (nn : nextnanopy) (py : interpreter) (keywords : keywords_arg)
    (folder_path software : string) (w w' : world) (e : exn) :
  never_fails nn →
  getDataFile_in_folder nn py keywords folder_path software w = (Err e, w') →
  (cls e = ValueError
   ∧ w' = w
   ∧ ∃ z, keywords = KwVal (VInt z) ∧ exceeds_str_digits z = true)
  ∨ (cls e = TypeError ∧ ∃ v, keywords = KwVal v ∧ is_str v = false)
  ∨ (cls e = IndexError ∧ keywords = KwList [])
  ∨ (cls e = FileNotFoundError ∧ search nn py keywords folder_path = OK [])
  ∨ ((cls e = RuntimeError ∨ cls e = EOFError)
     ∧ ∃ files, search nn py keywords folder_path = OK files
                ∧ (2 ≤ length files)%nat).
Proof.
  intros Hnn Hrun.
  destruct (show_keywords keywords) as [shown|e0] eqn:Hshown.
  2:{ destruct (getDataFile_in_folder_not_shown nn py _ folder_path software w _ Hshown)
        as (Heq & Hcls & Hz).
      rewrite Heq in Hrun. injection Hrun as <- <-. by left. }
  right.
  destruct (search nn py keywords folder_path) as [files|e0] eqn:Hsearch.
  - destruct (failure_after_search nn py _ _ _ _ _ _ _ _ Hnn Hshown Hsearch Hrun)
      as [[Hcls ->]|[Hcls Hlen]]; [by right; right; left|].
    right; right; right. eauto.
  - rewrite (getDataFile_in_folder_unfold nn py _ _ _ _ shown Hshown), Hsearch in Hrun.
    injection Hrun as <- _.
    destruct keywords as [v|[|k ks]].
    + left. destruct v as [s| | | |]; simpl in Hsearch.
      * destruct Hnn as [Hfind _]. destruct (Hfind folder_path s) as [l Hl]. congruence.
      * injection Hsearch as <-. eauto.
      * injection Hsearch as <-. eauto.
      * injection Hsearch as <-. eauto.
      * injection Hsearch as <-. eauto.
    + right; left. by injection Hsearch as <-.
    + destruct (results_exist nn folder_path (k :: ks) Hnn) as [results Hresults].
      destruct (search_list nn py (k :: ks) results folder_path) as (files & Hfiles & _);
        [done..|]. congruence.
Qed.

Lemma resolver_failure_kinds_witness :
  ((cls str_digits_error = ValueError
    ∧ World ["typed"] [] = World ["typed"] []
    ∧ ∃ z, KwVal (VInt (- str_digits_bound)) = KwVal (VInt z)
           ∧ exceeds_str_digits z = true)
   ∨ (cls str_digits_error = TypeError
      ∧ ∃ v, KwVal (VInt (- str_digits_bound)) = KwVal v ∧ is_str v = false)
   ∨ (cls str_digits_error = IndexError ∧ KwVal (VInt (- str_digits_bound)) = KwList [])
   ∨ (cls str_digits_error = FileNotFoundError
      ∧ search (sample_nn energy_folder) sample_py (KwVal (VInt (- str_digits_bound)))
          "out" = OK [])
   ∨ ((cls str_digits_error = RuntimeError ∨ cls str_digits_error = EOFError)
      ∧ ∃ files,
          search (sample_nn energy_folder) sample_py (KwVal (VInt (- str_digits_bound)))
            "out" = OK files
          ∧ (2 ≤ length files)%nat))
  ∧ getDataFile_in_folder (sample_nn energy_folder) sample_py (KwVal (VFloat "2.5"))
      "out" "nextnano++" (World [] [])
    = (Err (Raise TypeError "Argument 'keywords' must be either str or list"),
       World [] [searching "2.5"]).
Proof.
  assert (never_fails (sample_nn energy_folder)) as Hnn
    by (split; intros; eexists; reflexivity).
  split; [|reflexivity].
  apply (resolver_failure_kinds (sample_nn energy_folder) sample_py
           (KwVal (VInt (- str_digits_bound))) "out" "nextnano++"
           (World ["typed"] []) (World ["typed"] []) str_digits_error Hnn).
  by vm_compute.
Defined.

(** X19. [getDataFile] looks in the folder that [get_output_subfolder_path]
    gives for the configured output directory of the engine, the folder
    whose last component is the base name of the input file; the call is
    [getDataFile_in_folder] on that folder. *)
Theorem getDataFile_folder
    (nn : nextnanopy) (py : interpreter) (keywords : keywords_arg)
    (name software b ext outputdirectory : string) (w : world) :
  config_get nn software "outputdirectory" = OK outputdirectory →
  separateFileExtension name = OK (b, ext) →
  ∃ folder,
    get_output_subfolder_path outputdirectory name = OK folder
    ∧ posixpath.split_tail folder = b
    ∧ getDataFile nn py keywords name software w
      = getDataFile_in_folder nn py keywords folder software w.
Proof.
  intros Hcfg Hsep.
  pose proof (MorePathFacts.separateFileExtension_base _ _ _ Hsep) as Hb.
  unfold get_output_subfolder_path, getDataFile, bind, lift.
  rewrite Hcfg, Hsep. simpl. eexists. split_and!; [done| |done].
  by apply MorePathFacts.split_tail_join.
Qed.

Lemma getDataFile_folder_witness :
  ∃ folder,
    get_output_subfolder_path "/output/nextnano++" "runs/device.in" = OK folder
    ∧ posixpath.split_tail folder = "device"
    ∧ getDataFile (sample_nn energy_folder) sample_py (KwVal (VStr "potential"))
        "runs/device.in" "nextnano++" (World [] [])
      = getDataFile_in_folder (sample_nn energy_folder) sample_py
          (KwVal (VStr "potential")) folder "nextnano++" (World [] []).
Proof.
  apply (getDataFile_folder (sample_nn energy_folder) sample_py
           (KwVal (VStr "potential")) "runs/device.in" "nextnano++" "device" ".in"
           "/output/nextnano++" (World [] []));
    reflexivity.
Defined.

(** ** The limit on digits *)

Example int_parse_digit_limit :
  Int.parse (repeated "0" 4299 +:+ "1") = Some 1
  ∧ Int.parse (repeated "0" 4301 +:+ "1") = None
  ∧ Int.parse (repeated "9" 4301) = None
  ∧ Int.parse (" -" +:+ repeated "9" 4300 +:+ " ") = Some (1 - str_digits_bound)
  ∧ retry_message (repeated "9" 4301) = "Invalid input. (Type 'q' to quit)" +:+ Str.nl.
Proof. by vm_compute. Qed.

Example py_str_digit_limit :
  py_str (VInt (str_digits_bound - 1)) = OK (repeated "9" 4300)
  ∧ py_str (VInt (1 - str_digits_bound)) = OK ("-" +:+ repeated "9" 4300)
  ∧ py_str (VInt str_digits_bound) = Err str_digits_error
  ∧ py_str (VInt (- str_digits_bound)) = Err str_digits_error.
Proof. by vm_compute. Qed.
